(** * GitLabProvider: diff-position resolution

    A shallow embedding of [pr_agent/git_providers/gitlab_provider.py]:
    the line locator ([find_in_file], [search_line]), the position builder
    ([send_inline_comment]), the suggestion publisher
    ([publish_code_suggestions]), the diff-file catalog
    ([get_diff_files], [get_files]), the temporary comments
    ([publish_comment], [remove_initial_comment]) and the reading of a
    merge request URL ([_parse_merge_request_url]).

    Python [str] values are modelled as [string]; a character is a code
    point below 256.  Python exceptions are values of [exn]; pure fallible
    code lives in [result], code that touches the provider object in the
    state-and-exception monad [M]. *)

From Stdlib Require Import ZArith String Ascii List Bool Lia DecimalString.
From Stdlib Require Import DecimalPos.
From stdpp Require Import base gmap strings list.

Local Open Scope string_scope.
Local Open Scope Z_scope.

(** ** Exceptions and results *)

(** The subclasses of Python's [Exception] that the modelled code can
    raise.  [GitlabGetError] is the client's exception of that name, the
    only one that the provider catches by name; [GitlabError] stands for
    any other exception raised by a call into the GitLab client. *)
Inductive exn : Type :=
| IndexError
| KeyError (key : string)
| TypeError
| AttributeError
| UnboundLocalError (var : string)
| GitlabError (msg : string)
| GitlabGetError.

Inductive result (A : Type) : Type :=
| Return (a : A)
| Raise (e : exn).
Arguments Return {A} a.
Arguments Raise {A} e.

#[global] Instance result_ret : MRet result := fun A a => Return a.
#[global] Instance result_bind : MBind result := fun A B k r =>
  match r with
  | Return a => k a
  | Raise e => Raise e
  end.

(** Control flow of a loop body: fall through (or [continue]) to the next
    element, or [break]. *)
Inductive flow : Type := Next | Break.

(** [for x in xs: body] over local variables [S]. *)
Fixpoint for_each {A S} (body : A -> S -> result (flow * S))
    (xs : list A) (st : S) : result S :=
  match xs with
  | [] => Return st
  | x :: xs' =>
      match body x st with
      | Raise e => Raise e
      | Return (Break, st') => Return st'
      | Return (Next, st') => for_each body xs' st'
      end
  end.

(** ** Python string primitives *)
Module Py.

Definition code (c : ascii) : N := N_of_ascii c.

(** [s.startswith(p)] *)
Fixpoint startswith (p s : string) : bool :=
  match p, s with
  | EmptyString, _ => true
  | String a p', String b s' => Ascii.eqb a b && startswith p' s'
  | String _ _, EmptyString => false
  end.

(** [sub in s] *)
Fixpoint contains (sub s : string) : bool :=
  startswith sub s ||
  match s with
  | EmptyString => false
  | String _ s' => contains sub s'
  end.

(** [s[0]] *)
Definition getitem0 (s : string) : result ascii :=
  match s with
  | EmptyString => Raise IndexError
  | String c _ => Return c
  end.

(** [s[1:]] *)
Definition slice_from1 (s : string) : string :=
  match s with
  | EmptyString => EmptyString
  | String _ s' => s'
  end.

(** [c.isspace()] on code points below 256. *)
Definition isspace (c : ascii) : bool :=
  let n := code c in
  ((9 <=? n) && (n <=? 13) || (28 <=? n) && (n <=? 32)
   || (n =? 133) || (n =? 160))%N.

(** [s.lstrip()] *)
Fixpoint lstrip (s : string) : string :=
  match s with
  | EmptyString => EmptyString
  | String c s' => if isspace c then lstrip s' else s
  end.

(** Line boundaries of [str.splitlines] other than carriage return. *)
Definition is_linebreak (c : ascii) : bool :=
  let n := code c in
  ((n =? 10) || (n =? 11) || (n =? 12) || (28 <=? n) && (n <=? 30)
   || (n =? 133))%N.

Definition is_cr (c : ascii) : bool := (code c =? 13)%N.
Definition is_lf (c : ascii) : bool := (code c =? 10)%N.

(** [splitlines]: [cur] is the line being read, [brk] recognises the
    one-character boundaries; a carriage return followed by a line feed
    is one boundary. *)
Fixpoint splitlines_from (brk : ascii -> bool) (s cur : string)
  : list string :=
  match s with
  | EmptyString =>
      match cur with EmptyString => [] | _ => [cur] end
  | String c s' =>
      if is_cr c then
        match s' with
        | String d s'' =>
            if is_lf d then cur :: splitlines_from brk s'' EmptyString
            else cur :: splitlines_from brk s' EmptyString
        | EmptyString => [cur]
        end
      else if brk c then cur :: splitlines_from brk s' EmptyString
      else splitlines_from brk s' (cur ++ String c EmptyString)%string
  end.

(** [str.splitlines()] *)
Definition splitlines (s : string) : list string :=
  splitlines_from is_linebreak s EmptyString.

(** [bytes.splitlines()]: only line feed and carriage return split. *)
Definition splitlines_bytes (s : string) : list string :=
  splitlines_from is_lf s EmptyString.

Definition isdigit (c : ascii) : bool :=
  let n := code c in ((48 <=? n) && (n <=? 57))%N.

(** The longest prefix of decimal digits, and the rest. *)
Fixpoint span_digits (s : string) : string * string :=
  match s with
  | EmptyString => (EmptyString, EmptyString)
  | String c s' =>
      if isdigit c then
        let '(ds, rest) := span_digits s' in (String c ds, rest)
      else (EmptyString, s)
  end.

Fixpoint int_digits (acc : Z) (ds : string) : Z :=
  match ds with
  | EmptyString => acc
  | String c ds' => int_digits (10 * acc + (Z.of_N (code c) - 48)) ds'
  end.

(** [int(ds)] for a string of decimal digits. *)
Definition int (ds : string) : Z := int_digits 0 ds.

(** [str(n)] / [f"{n}"] for an integer. *)
Definition str_of_int (n : Z) : string :=
  NilZero.string_of_int (Z.to_int n).

(** Remove the prefix [p], if it is there. *)
Fixpoint strip_prefix (p s : string) : option string :=
  match p, s with
  | EmptyString, _ => Some s
  | String a p', String b s' =>
      if Ascii.eqb a b then strip_prefix p' s' else None
  | String _ _, EmptyString => None
  end.

(** [s.replace(old, new)] for a non-empty [old]: occurrences are
    replaced left to right without overlap.  [skip] counts the
    characters of an occurrence that are still to be passed over. *)
Fixpoint replace_from (old new s : string) (skip : nat) : string :=
  match s with
  | EmptyString => EmptyString
  | String c s' =>
      match skip with
      | S k => replace_from old new s' k
      | O =>
          if startswith old s
          then (new ++ replace_from old new s' (String.length old - 1))%string
          else String c (replace_from old new s' O)
      end
  end.

Definition replace (s old new : string) : string :=
  replace_from old new s O.

End Py.

(** ** Data model *)

(** Modelled from the spec: [EDIT_TYPE] and [FilePatchInfo] are declared in
    [git_provider.py], which is not among the sources; the constructors
    and fields are those the provider uses (the spec's EditType and
    FileDiff). *)
Inductive EDIT_TYPE : Type := ADDED | DELETED | MODIFIED | RENAMED.

(** A file content is a [str], or still [bytes] when decoding failed. *)
Inductive content : Type :=
| CStr (s : string)
| CBytes (b : string).

Record FilePatchInfo : Type := mkFilePatchInfo {
  base_file : content;
  head_file : content;
  patch : string;
  filename : string;
  edit_type : EDIT_TYPE;
  old_filename : option string
}.

(** ** The hunk header grammar

    [RE_HUNK_HEADER] reads, in order: the text [@@ -], one or more digits
    (group 1), optionally a comma and digits (group 2), a space and a plus
    sign, digits (group 3), optionally a comma and digits (group 4), the
    text [ @@], at most one space, and the rest of the line (group 5).
    Every run of digits is followed by a character that is no digit, and each
    optional group starts with a comma where the continuation needs a
    space, so the greedy choice is the only one that can succeed and the
    matcher below needs no backtracking. *)
Record hunk_groups : Type := mkGroups {
  start_old : string;
  size_old : option string;
  start_new : string;
  size_new : option string;
  heading : string
}.

(** One or more digits, as a group. *)
Definition re_digits (s : string) : option (string * string) :=
  match Py.span_digits s with
  | (EmptyString, _) => None
  | (ds, rest) => Some (ds, rest)
  end.

(** The optional group: a comma and one or more digits. *)
Definition re_opt_size (s : string) : option string * string :=
  match Py.strip_prefix "," s with
  | Some s' =>
      match re_digits s' with
      | Some (ds, rest) => (Some ds, rest)
      | None => (None, s)
      end
  | None => (None, s)
  end.

(** The last group: the dot matches everything but a line feed. *)
Fixpoint re_dot_star (s : string) : string :=
  match s with
  | EmptyString => EmptyString
  | String c s' => if Py.is_lf c then EmptyString else String c (re_dot_star s')
  end.

(** [self.RE_HUNK_HEADER.match(line)], with its groups. *)
Definition RE_HUNK_HEADER_match (line : string) : option hunk_groups :=
  match Py.strip_prefix "@@ -" line with
  | None => None
  | Some s1 =>
  match re_digits s1 with
  | None => None
  | Some (so, s2) =>
  let '(zo, s3) := re_opt_size s2 in
  match Py.strip_prefix " +" s3 with
  | None => None
  | Some s4 =>
  match re_digits s4 with
  | None => None
  | Some (sn, s5) =>
  let '(zn, s6) := re_opt_size s5 in
  match Py.strip_prefix " @@" s6 with
  | None => None
  | Some s7 =>
      let s8 := match Py.strip_prefix " " s7 with
                | Some s' => s'
                | None => s7
                end in
      Some (mkGroups so zo sn zn (re_dot_star s8))
  end end end end end.

(** ** The line locator *)

(** [get_edit_type]: classification by the leading character. *)
Definition get_edit_type (relevant_line_in_file : string) : result string :=
  c ← Py.getitem0 relevant_line_in_file;
  if Ascii.eqb c "-" then Return "deletion"
  else
    c' ← Py.getitem0 relevant_line_in_file;
    if Ascii.eqb c' "+" then Return "addition" else Return "context".

(** The local variables of [find_in_file] that the loop updates. *)
Record locals : Type := mkLocals {
  l_edit_type : string;
  l_source_line_no : Z;
  l_target_line_no : Z;
  l_found : bool
}.

(** The counters after the three [startswith] tests of a content line. *)
Definition count_line (line : string) (st : locals) : locals :=
  if Py.startswith "-" line then
    mkLocals (l_edit_type st) (l_source_line_no st + 1) (l_target_line_no st)
             (l_found st)
  else if Py.startswith "+" line then
    mkLocals (l_edit_type st) (l_source_line_no st) (l_target_line_no st + 1)
             (l_found st)
  else if Py.startswith " " line then
    mkLocals (l_edit_type st) (l_source_line_no st + 1)
             (l_target_line_no st + 1) (l_found st)
  else st.

(** [found = True; edit_type = self.get_edit_type(line); break] *)
Definition matched (line : string) (st : locals) : result (flow * locals) :=
  et ← get_edit_type line;
  Return (Break, mkLocals et (l_source_line_no st) (l_target_line_no st) true).

(** One iteration of the loop over the patch lines. *)
Definition find_in_file_body (relevant_line_in_file line : string)
    (st : locals) : result (flow * locals) :=
  if Py.startswith "@@" line then
    match RE_HUNK_HEADER_match line with
    | None => Return (Next, st)
    | Some g =>
        Return (Next, mkLocals (l_edit_type st) (Py.int (start_old g))
                               (Py.int (start_new g)) (l_found st))
    end
  else
    let st1 := count_line line st in
    if Py.contains relevant_line_in_file line then matched line st1
    else
      c ← Py.getitem0 relevant_line_in_file;
      if Ascii.eqb c "+"
         && Py.contains (Py.lstrip (Py.slice_from1 relevant_line_in_file)) line
      then matched line st1
      else Return (Next, st1).

Definition find_in_file_init : locals := mkLocals "context" 0 0 false.

(** The loop of [find_in_file] over the lines of a patch. *)
Definition find_in_lines (relevant_line_in_file : string)
    (patch_lines : list string) : result locals :=
  for_each (find_in_file_body relevant_line_in_file) patch_lines
           find_in_file_init.

(** [find_in_file] returns the tuple
    [(edit_type, found, source_line_no, target_file, target_line_no)]. *)
Definition find_in_file (file : FilePatchInfo) (relevant_line_in_file : string)
  : result (string * bool * Z * FilePatchInfo * Z) :=
  st ← find_in_lines relevant_line_in_file (Py.splitlines (patch file));
  Return (l_edit_type st, l_found st, l_source_line_no st, file,
          l_target_line_no st).

(** ** Dynamically typed values *)

(** The Python values that reach the provider through suggestion
    dictionaries and position mappings. *)
Inductive pyval : Type :=
| PNone
| PInt (n : Z)
| PStr (s : string)
| PBytes (b : string).

(** [a - b]: defined on integers only. *)
Definition py_sub (a b : pyval) : result pyval :=
  match a, b with
  | PInt x, PInt y => Return (PInt (x - y))
  | _, _ => Raise TypeError
  end.

(** [a + 1] *)
Definition py_add1 (a : pyval) : result pyval :=
  match a with
  | PInt x => Return (PInt (x + 1))
  | _ => Raise TypeError
  end.

(** [d[k]] on a dictionary. *)
Definition dict_getitem (d : gmap string pyval) (k : string) : result pyval :=
  match d !! k with
  | Some v => Return v
  | None => Raise (KeyError k)
  end.

(** [l[i]] on a list: a negative index counts from the end. *)
Definition list_getitem {A} (l : list A) (i : Z) : result A :=
  let n := Z.of_nat (length l) in
  let j := if i <? 0 then i + n else i in
  if (j <? 0) || (n <=? j) then Raise IndexError
  else match l !! Z.to_nat j with
       | Some x => Return x
       | None => Raise IndexError
       end.

(** ** The provider object and its collaborators *)

(** One entry of [self.mr.changes()['changes']]. *)
Record change : Type := mkChange {
  old_path : string;
  new_path : string;
  new_file : bool;
  deleted_file : bool;
  renamed_file : bool;
  diff : string
}.

(** [self.last_diff] *)
Record commit_range : Type := mkRange {
  base_commit_sha : string;
  start_commit_sha : string;
  head_commit_sha : string
}.

(** The argument of [self.mr.discussions.create]. *)
Record discussion : Type := mkDiscussion {
  d_body : string;
  d_position : gmap string pyval
}.

(** The records written through [logging], one constructor per call site. *)
Inductive log_entry : Type :=
| LogInfo_no_position (relevant_file relevant_line_in_file : pyval)
| LogDebug_creating (mr : Z) (body : string) (pos_obj : gmap string pyval)
| LogWarning_decode (old new : string) (mr : Z)
| LogException_suggestion (suggestion : gmap string pyval) (e : exn).

(** What lies outside the provider: the file filter of
    [language_handler], UTF-8 decoding, and the answers of the GitLab
    server.  [files_get] is the decoded payload of a file on a branch, or
    the exception that the client raises for it; [utf8_decode] is [None]
    on [UnicodeDecodeError]; [discussions_create] tells, from the
    discussions that exist and the new one, whether the call raises. *)
Record environment : Type := mkEnv {
  is_valid_file : string -> bool;
  utf8_decode : string -> option string;
  files_get : string -> string -> result string;
  mr_changes : result (list change);
  discussions_create : list discussion -> discussion -> option exn
}.

(** The fields of [self] (and of [self.mr]) that the modelled methods read
    or write, with the log. *)
Record GitLabProvider : Type := mkProvider {
  id_mr : Z;
  target_branch : string;
  source_branch : string;
  last_diff : commit_range;
  diff_files : option (list FilePatchInfo);
  discussions : list discussion;
  log : list log_entry
}.

Definition set_diff_files (fs : option (list FilePatchInfo))
    (self : GitLabProvider) : GitLabProvider :=
  mkProvider (id_mr self) (target_branch self) (source_branch self)
             (last_diff self) fs (discussions self) (log self).

Definition add_discussion (d : discussion) (self : GitLabProvider)
  : GitLabProvider :=
  mkProvider (id_mr self) (target_branch self) (source_branch self)
             (last_diff self) (diff_files self) (discussions self ++ [d])
             (log self).

Definition add_log (e : log_entry) (self : GitLabProvider) : GitLabProvider :=
  mkProvider (id_mr self) (target_branch self) (source_branch self)
             (last_diff self) (diff_files self) (discussions self)
             (log self ++ [e]).

(** Methods: a result and the provider after the call.  State changes made
    before an exception is raised are kept. *)
Definition M (A : Type) : Type := GitLabProvider -> result A * GitLabProvider.

#[global] Instance M_ret : MRet M := fun A a self => (Return a, self).
#[global] Instance M_bind : MBind M := fun A B k m self =>
  match m self with
  | (Return a, self') => k a self'
  | (Raise e, self') => (Raise e, self')
  end.

Definition lift {A} (r : result A) : M A := fun self => (r, self).
Definition get_self : M GitLabProvider := fun self => (Return self, self).
Definition modify (f : GitLabProvider -> GitLabProvider) : M unit :=
  fun self => (Return tt, f self).
Definition logging (e : log_entry) : M unit := modify (add_log e).

(** [try: m except Exception as e: handler e] *)
Definition try_except {A} (m : M A) (handler : exn -> M A) : M A :=
  fun self =>
    match m self with
    | (Return a, self') => (Return a, self')
    | (Raise e, self') => handler e self'
    end.

(** [for x in xs: body x], without [break]. *)
Fixpoint for_each_M {A} (body : A -> M unit) (xs : list A) : M unit :=
  match xs with
  | [] => mret tt
  | x :: xs' => _ ← body x; for_each_M body xs'
  end.

(** ** The diff-file catalog *)

(** [_get_pr_file_content]: the decoded payload of the file, or the empty
    string when the client raises [GitlabGetError] (the file does not
    exist on that branch); any other exception of the client is not
    caught. *)
Definition get_pr_file_content (E : environment) (file_path branch : string)
  : result content :=
  match files_get E file_path branch with
  | Return b => Return (CBytes b)
  | Raise GitlabGetError => Return (CStr "")
  | Raise e => Raise e
  end.

(** The edit type of an entry, from its three flags. *)
Definition classify_change (d : change) : EDIT_TYPE :=
  let edit_type := MODIFIED in
  if new_file d then ADDED
  else if deleted_file d then DELETED
  else if renamed_file d then RENAMED
  else edit_type.

(** The [try] block that decodes the two contents: the first failure
    leaves the rest undone; the flag tells whether the warning is logged. *)
Definition decode_contents (E : environment) (original new : content)
  : content * content * bool :=
  let second (o : content) :=
    match new with
    | CBytes b =>
        match utf8_decode E b with
        | Some s => (o, CStr s, false)
        | None => (o, new, true)
        end
    | CStr _ => (o, new, false)
    end in
  match original with
  | CBytes b =>
      match utf8_decode E b with
      | Some s => second (CStr s)
      | None => (original, new, true)
      end
  | CStr _ => second original
  end.

(** [old_filename=None if diff['old_path'] == diff['new_path'] else
    diff['old_path']] *)
Definition old_filename_of (d : change) : option string :=
  if String.eqb (old_path d) (new_path d) then None else Some (old_path d).

(** One iteration of the loop of [get_diff_files]. *)
Definition get_diff_files_body (E : environment) (d : change)
    (acc : list FilePatchInfo) : M (list FilePatchInfo) :=
  if is_valid_file E (new_path d) then
    self ← get_self;
    original ← lift (get_pr_file_content E (old_path d) (target_branch self));
    new ← lift (get_pr_file_content E (new_path d) (source_branch self));
    let et := classify_change d in
    let '(original', new', warn) := decode_contents E original new in
    _ ← (if warn
         then logging (LogWarning_decode (old_path d) (new_path d) (id_mr self))
         else mret tt);
    mret (acc ++ [mkFilePatchInfo original' new' (diff d) (new_path d) et
                                  (old_filename_of d)])%list
  else mret acc.

Fixpoint get_diff_files_loop (E : environment) (diffs : list change)
    (acc : list FilePatchInfo) : M (list FilePatchInfo) :=
  match diffs with
  | [] => mret acc
  | d :: diffs' =>
      acc' ← get_diff_files_body E d acc;
      get_diff_files_loop E diffs' acc'
  end.

Definition get_diff_files (E : environment) : M (list FilePatchInfo) :=
  diffs ← lift (mr_changes E);
  fs ← get_diff_files_loop E diffs [];
  _ ← modify (set_diff_files (Some fs));
  mret fs.

(** [self.diff_files = self.diff_files if self.diff_files else
    self.get_diff_files()]: [None] and the empty list are both falsy. *)
Definition ensure_diff_files (E : environment) : M unit :=
  self ← get_self;
  match diff_files self with
  | Some (f :: fs) => modify (set_diff_files (Some (f :: fs)))
  | _ => fs ← get_diff_files E; modify (set_diff_files (Some fs))
  end.

(** ** Looking a line up in the catalog *)

(** The locals of [search_line]; [None] in the last four fields of the
    inner options means that the name is not bound yet. *)
Record search_locals : Type := mkSearch {
  s_edit_type : string;
  s_found : option bool;
  s_source_line_no : option Z;
  s_target_file : option FilePatchInfo;
  s_target_line_no : option Z
}.

(** Reading a local variable that may be unbound. *)
Definition read_local {A} (name : string) (v : option A) : result A :=
  match v with
  | Some a => Return a
  | None => Raise (UnboundLocalError name)
  end.

Definition search_line_body (relevant_file relevant_line_in_file : string)
    (file : FilePatchInfo) (st : search_locals)
  : result (flow * search_locals) :=
  if String.eqb (filename file) relevant_file then
    '(et, fnd, src, tf, tgt) ← find_in_file file relevant_line_in_file;
    Return (Next, mkSearch et (Some fnd) (Some src) (Some tf) (Some tgt))
  else Return (Next, st).

(** [for file in self.diff_files]: iterating [None] is a [TypeError]. *)
Definition iter_diff_files (self : GitLabProvider)
  : result (list FilePatchInfo) :=
  match diff_files self with
  | Some fs => Return fs
  | None => Raise TypeError
  end.

(** [search_line]; the returned [target_file] is [None] or a file. *)
Definition search_line (self : GitLabProvider)
    (relevant_file relevant_line_in_file : string)
  : result (string * bool * Z * option FilePatchInfo * Z) :=
  et ← get_edit_type relevant_line_in_file;
  files ← iter_diff_files self;
  st ← for_each (search_line_body relevant_file relevant_line_in_file) files
                (mkSearch et None None None None);
  fnd ← read_local "found" (s_found st);
  src ← read_local "source_line_no" (s_source_line_no st);
  tgt ← read_local "target_line_no" (s_target_line_no st);
  Return (s_edit_type st, fnd, src, s_target_file st, tgt).

(** ** Building and sending a position *)

(** Attribute access on [target_file], which may be [None]. *)
Definition getattr_file (target_file : option FilePatchInfo)
  : result FilePatchInfo :=
  match target_file with
  | Some f => Return f
  | None => Raise AttributeError
  end.

(** [target_file.old_filename if target_file.old_filename else
    target_file.filename]: [None] and the empty string are falsy. *)
Definition old_path_of (f : FilePatchInfo) : string :=
  match old_filename f with
  | Some (String c o) => String c o
  | _ => filename f
  end.

(** The mapping [pos_obj] of [send_inline_comment]. *)
Definition build_pos_obj (d : commit_range) (edit_type : string)
    (source_line_no : pyval) (target_file : option FilePatchInfo)
    (target_line_no : pyval) : result (gmap string pyval) :=
  f ← getattr_file target_file;
  let pos_obj : gmap string pyval :=
    <["head_sha" := PStr (head_commit_sha d)]>
    (<["start_sha" := PStr (start_commit_sha d)]>
    (<["base_sha" := PStr (base_commit_sha d)]>
    (<["old_path" := PStr (old_path_of f)]>
    (<["new_path" := PStr (filename f)]>
    (<["position_type" := PStr "text"]> ∅))))) in
  if String.eqb edit_type "deletion" then
    o ← py_sub source_line_no (PInt 1);
    Return (<["old_line" := o]> pos_obj)
  else if String.eqb edit_type "addition" then
    n ← py_sub target_line_no (PInt 1);
    Return (<["new_line" := n]> pos_obj)
  else
    n ← py_sub target_line_no (PInt 1);
    o ← py_sub source_line_no (PInt 1);
    Return (<["old_line" := o]> (<["new_line" := n]> pos_obj)).

(** [self.mr.discussions.create(d)] *)
Definition mr_discussions_create (E : environment) (d : discussion) : M unit :=
  fun self =>
    match discussions_create E (discussions self) d with
    | Some e => (Raise e, self)
    | None => (Return tt, add_discussion d self)
    end.

Definition send_inline_comment (E : environment) (body : string)
    (edit_type : string) (found : bool)
    (relevant_file relevant_line_in_file : pyval) (source_line_no : pyval)
    (target_file : option FilePatchInfo) (target_line_no : pyval) : M unit :=
  if negb found then
    logging (LogInfo_no_position relevant_file relevant_line_in_file)
  else
    self ← get_self;
    pos_obj ← lift (build_pos_obj (last_diff self) edit_type source_line_no
                                  target_file target_line_no);
    _ ← logging (LogDebug_creating (id_mr self) body pos_obj);
    mr_discussions_create E (mkDiscussion body pos_obj).

Definition publish_inline_comment (E : environment) (body : string)
    (relevant_file relevant_line_in_file : string) : M unit :=
  _ ← ensure_diff_files E;
  self ← get_self;
  '(edit_type, found, source_line_no, target_file, target_line_no) ←
    lift (search_line self relevant_file relevant_line_in_file);
  send_inline_comment E body edit_type found (PStr relevant_file)
    (PStr relevant_line_in_file) (PInt source_line_no) target_file
    (PInt target_line_no).

(** ** Publishing code suggestions *)

Definition suggestion_marker : string := "```suggestion".

(** [file.filename == relevant_file] *)
Definition filename_eq (file : FilePatchInfo) (relevant_file : pyval) : bool :=
  match relevant_file with
  | PStr s => String.eqb (filename file) s
  | _ => false
  end.

(** The inner loop that picks [target_file], leaving at the first hit. *)
Definition pick_target_body (relevant_file : pyval) (file : FilePatchInfo)
    (target_file : option FilePatchInfo)
  : result (flow * option FilePatchInfo) :=
  if filename_eq file relevant_file then
    if filename_eq file relevant_file then Return (Break, Some file)
    else Return (Next, target_file)
  else Return (Next, target_file).

(** [body.replace('```suggestion', f'```suggestion:-0+{range}')] *)
Definition rewrite_body (body range : pyval) : result string :=
  match body, range with
  | PStr b, PInt n =>
      Return (Py.replace b suggestion_marker
                (suggestion_marker ++ ":-0+" ++ Py.str_of_int n)%string)
  | PBytes _, _ => Raise TypeError
  | _, _ => Raise AttributeError
  end.

(** [target_file.head_file.splitlines()] *)
Definition head_file_lines (target_file : option FilePatchInfo)
  : result (list pyval) :=
  f ← getattr_file target_file;
  match head_file f with
  | CStr s => Return (PStr <$> Py.splitlines s)
  | CBytes b => Return (PBytes <$> Py.splitlines_bytes b)
  end.

(** [lines[relevant_lines_start - 1]] *)
Definition line_at (lines : list pyval) (relevant_lines_start : pyval)
  : result pyval :=
  i ← py_sub relevant_lines_start (PInt 1);
  match i with
  | PInt i => list_getitem lines i
  | _ => Raise TypeError
  end.

(** The [try] block run for one suggestion. *)
Definition publish_suggestion (E : environment)
    (suggestion : gmap string pyval) : M unit :=
  body ← lift (dict_getitem suggestion "body");
  relevant_file ← lift (dict_getitem suggestion "relevant_file");
  relevant_lines_start ← lift (dict_getitem suggestion "relevant_lines_start");
  relevant_lines_end ← lift (dict_getitem suggestion "relevant_lines_end");
  _ ← ensure_diff_files E;
  self ← get_self;
  files ← lift (iter_diff_files self);
  target_file ← lift (for_each (pick_target_body relevant_file) files None);
  range ← lift (py_sub relevant_lines_end relevant_lines_start);
  body ← lift (rewrite_body body range);
  lines ← lift (head_file_lines target_file);
  relevant_line_in_file ← lift (line_at lines relevant_lines_start);
  let source_line_no := PNone in
  target_line_no ← lift (py_add1 relevant_lines_start);
  let found := true in
  let edit_type := "addition" in
  send_inline_comment E body edit_type found relevant_file
    relevant_line_in_file source_line_no target_file target_line_no.

(** [except Exception as e: logging.exception(...)] *)
Definition log_suggestion_failure (suggestion : gmap string pyval) (e : exn)
  : M unit :=
  logging (LogException_suggestion suggestion e).

Definition publish_code_suggestions (E : environment)
    (code_suggestions : list (gmap string pyval)) : M unit :=
  for_each_M
    (fun suggestion =>
       try_except (publish_suggestion E suggestion)
                  (log_suggestion_failure suggestion))
    code_suggestions.

(** ** Notions used in the statements *)

Definition LF : string := String "010" EmptyString.

(** The patch of the concrete scenario, one hunk of a modified file. *)
Definition scenario_patch : string :=
  String.concat LF
    ["@@ -1,3 +1,4 @@"; " context1"; "-old line"; "+new line A";
     "+new line B"; " context2"].

Definition scenario_file : FilePatchInfo :=
  mkFilePatchInfo
    (CStr (String.concat LF ["context1"; "old line"; "context2"]))
    (CStr (String.concat LF ["context1"; "new line A"; "new line B";
                             "context2"]))
    scenario_patch "src/app.py" MODIFIED None.

(** A line led by one of the three sigils. *)
Definition leading_sigil (line : string) : bool :=
  Py.startswith "-" line || Py.startswith "+" line || Py.startswith " " line.

(** A line that the header grammar accepts. *)
Definition is_hunk_header (line : string) : bool :=
  match RE_HUNK_HEADER_match line with
  | Some _ => true
  | None => false
  end.

(** A line of the kind the specification calls [other]. *)
Definition other_line (line : string) : bool :=
  negb (leading_sigil line) && negb (is_hunk_header line).

(** The reference with its leading character removed and left-trimmed. *)
Definition stripped (relevant_line_in_file : string) : string :=
  Py.lstrip (Py.slice_from1 relevant_line_in_file).

(** The two tests of the loop on one line: the reference itself or, for a
    reference that begins with a plus sign, the stripped reference. *)
Definition line_matches (relevant_line_in_file line : string) : bool :=
  Py.contains relevant_line_in_file line
  || Py.startswith "+" relevant_line_in_file
     && Py.contains (stripped relevant_line_in_file) line.

(** A line at which the loop stops: it does not begin with [@@] and
    passes one of the two tests. *)
Definition candidate (relevant_line_in_file line : string) : bool :=
  negb (Py.startswith "@@" line) && line_matches relevant_line_in_file line.

(** The counters after a line at which the loop does not stop. *)
Definition pass_line (line : string) (st : locals) : locals :=
  if Py.startswith "@@" line then
    match RE_HUNK_HEADER_match line with
    | None => st
    | Some g =>
        mkLocals (l_edit_type st) (Py.int (start_old g))
                 (Py.int (start_new g)) (l_found st)
    end
  else count_line line st.

Definition pass_lines (lines : list string) (st : locals) : locals :=
  fold_left (fun st line => pass_line line st) lines st.

(** The locator in the words of the specification: one scan for the text
    itself, the first line that contains it being the match ... *)
Definition scan_body (text line : string) (st : locals)
  : result (flow * locals) :=
  if Py.startswith "@@" line then Return (Next, pass_line line st)
  else
    let st1 := count_line line st in
    if Py.contains text line then matched line st1 else Return (Next, st1).

(** ... and, only when that scan found nothing and the reference begins
    with a plus sign, a second scan for the stripped reference. *)
Definition two_scan_locate (relevant_line_in_file : string)
    (patch_lines : list string) : result locals :=
  st ← for_each (scan_body relevant_line_in_file) patch_lines
                find_in_file_init;
  if l_found st then Return st
  else if Py.startswith "+" relevant_line_in_file then
    for_each (scan_body (stripped relevant_line_in_file)) patch_lines
             find_in_file_init
  else Return st.

(** A patch in which a context line precedes an added line of the same
    text. *)
Definition shadow_file : FilePatchInfo :=
  mkFilePatchInfo (CStr "foo") (CStr (String.concat LF ["foo"; "foo"]))
    (String.concat LF ["@@ -1,1 +1,2 @@"; " foo"; "+foo"])
    "src/app.py" MODIFIED None.

(** A patch that ends with the marker of a missing final newline. *)
Definition marker_file : FilePatchInfo :=
  mkFilePatchInfo (CStr "a") (CStr "b")
    (String.concat LF
       ["@@ -1 +1 @@"; "-a"; "+b"; "\ No newline at end of file"])
    "src/app.py" MODIFIED None.

(** A server that knows the scenario file only and accepts every
    discussion, and a provider whose catalog holds that file. *)
Definition scenario_env : environment :=
  mkEnv (fun _ => true) (fun b => Some b) (fun _ _ => Raise GitlabGetError)
        (Return [mkChange "src/app.py" "src/app.py" false false false
                          scenario_patch])
        (fun _ _ => None).

Definition scenario_provider : GitLabProvider :=
  mkProvider 7 "main" "feature" (mkRange "b0" "s0" "h0")
             (Some [scenario_file]) [] [].

(** A catalog in which two entries carry the same file name. *)
Definition twice_provider : GitLabProvider :=
  set_diff_files (Some [shadow_file; scenario_file]) scenario_provider.

(** The number of suggestion failures written to the log. *)
Fixpoint exceptions_logged (l : list log_entry) : nat :=
  match l with
  | [] => O
  | LogException_suggestion _ _ :: l' => S (exceptions_logged l')
  | _ :: l' => exceptions_logged l'
  end.

(** A suggestion for lines 2 to 3 of the scenario file, and one that
    lacks its body. *)
Definition scenario_suggestion : gmap string pyval :=
  <["body" := PStr "```suggestion"]>
  (<["relevant_file" := PStr "src/app.py"]>
  (<["relevant_lines_start" := PInt 2]>
  (<["relevant_lines_end" := PInt 3]> ∅))).

Definition broken_suggestion : gmap string pyval :=
  <["relevant_file" := PStr "src/app.py"]> ∅.

(** No occurrence of [old] starts inside [pre] when [pre] is followed by
    [rest]. *)
Definition none_starts_in (old pre rest : string) : Prop :=
  forall a b : string,
    pre = (a ++ b)%string -> b <> "" ->
    Py.startswith old (b ++ rest)%string = false.

(** The relation between a catalog entry and the change it was built
    from. *)
Definition built_from (f : FilePatchInfo) (d : change) : Prop :=
  filename f = new_path d
  /\ patch f = diff d
  /\ edit_type f = classify_change d
  /\ old_filename f = old_filename_of d.

(** A method that creates no discussion and logs no suggestion failure,
    however it ends. *)
Definition quiet {A} (m : M A) : Prop :=
  forall self r self',
    m self = (r, self') ->
    discussions self' = discussions self
    /\ exceptions_logged (log self') = exceptions_logged (log self).

(** A method that logs no suggestion failure and either returns, having
    created exactly one discussion, or raises, having created none. *)
Definition posts_one (m : M unit) : Prop :=
  forall self r self',
    m self = (r, self') ->
    exceptions_logged (log self') = exceptions_logged (log self)
    /\ ((r = Return tt
         /\ exists d, discussions self' = (discussions self ++ [d])%list)
        \/ ((exists e, r = Raise e)
            /\ discussions self' = discussions self)).

(** The entry that [get_diff_files] builds for the scenario: the server
    has neither version of the file, so both contents are empty. *)
Definition scenario_built : FilePatchInfo :=
  mkFilePatchInfo (CStr "") (CStr "") scenario_patch "src/app.py" MODIFIED
                  None.

(** ** Notions used in the further statements *)

(** A string of decimal digits. *)
Fixpoint all_digits (s : string) : bool :=
  match s with
  | EmptyString => true
  | String c s' => Py.isdigit c && all_digits s'
  end.

(** A string that does not go on with a digit. *)
Definition no_digit_ahead (s : string) : bool :=
  match s with
  | EmptyString => true
  | String c _ => negb (Py.isdigit c)
  end.

(** A string without line feed. *)
Fixpoint no_linefeed (s : string) : bool :=
  match s with
  | EmptyString => true
  | String c s' => negb (Py.is_lf c) && no_linefeed s'
  end.

(** The text of an optional size group of a hunk header. *)
Definition size_text (o : option string) : string :=
  match o with
  | Some z => ("," ++ z)%string
  | None => EmptyString
  end.

(** The header line that declares the given starts and sizes, with a
    section heading. *)
Definition header_line (a : Z) (b : option Z) (c : Z) (d : option Z)
    (h : string) : string :=
  ("@@ -" ++ Py.str_of_int a ++ size_text (Py.str_of_int <$> b)
   ++ " +" ++ Py.str_of_int c ++ size_text (Py.str_of_int <$> d)
   ++ " @@ " ++ h)%string.

Definition opt_nonneg (o : option Z) : Prop :=
  match o with
  | Some z => 0 <= z
  | None => True
  end.

(** The increments of the two counters at a content line. *)
Definition source_step (line : string) : Z :=
  if Py.startswith "-" line || Py.startswith " " line then 1 else 0.

Definition target_step (line : string) : Z :=
  if Py.startswith "+" line || Py.startswith " " line then 1 else 0.

(** A patch with an empty line between its header and an added line. *)
Definition blank_file : FilePatchInfo :=
  mkFilePatchInfo (CStr "") (CStr "x")
    (String.concat LF ["@@ -1 +1 @@"; ""; "+x"])
    "src/app.py" MODIFIED None.










(** The first entry of a catalog that carries a name. *)
Definition first_named (relevant_file : pyval) (files : list FilePatchInfo)
  : option FilePatchInfo :=
  List.find (fun f => filename_eq f relevant_file) files.

(** The body of a suggestion after the marker has been rewritten. *)
Definition rewritten (b : string) (n : Z) : string :=
  Py.replace b suggestion_marker
    (suggestion_marker ++ ":-0+" ++ Py.str_of_int n)%string.

(** A suggestion for line 0 of the scenario file. *)
Definition zero_suggestion : gmap string pyval :=
  <["body" := PStr "```suggestion"]>
  (<["relevant_file" := PStr "src/app.py"]>
  (<["relevant_lines_start" := PInt 0]>
  (<["relevant_lines_end" := PInt 1]> ∅))).

(** A suggestion for a file that the scenario catalog does not hold. *)
Definition stray_suggestion : gmap string pyval :=
  <["body" := PStr "```suggestion"]>
  (<["relevant_file" := PStr "README.md"]>
  (<["relevant_lines_start" := PInt 1]>
  (<["relevant_lines_end" := PInt 1]> ∅))).

(** The first of the four keys, in the order in which they are read, that
    a suggestion lacks. *)
Definition first_missing_key (sug : gmap string pyval) : option string :=
  List.find (fun k => match sug !! k with None => true | Some _ => false end)
    ["body"; "relevant_file"; "relevant_lines_start"; "relevant_lines_end"].

(** ** Comments on the merge request *)

(** A note as the server returns it from [self.mr.notes.create]. *)
Record note : Type := mkNote {
  note_id : Z;
  note_body : string
}.

(** The answers of the server for notes: what [notes.create] returns, or
    the exception it raises, from the notes created so far and the body;
    and whether [comment.delete()] raises, from the notes deleted so far
    and the note. *)
Record notes_server : Type := mkNotesServer {
  notes_create : list note -> string -> result note;
  note_delete : list note -> note -> option exn
}.

(** [self.temp_comments], with the notes created and deleted through the
    provider and the failures that [remove_initial_comment] logged. *)
Record comments : Type := mkComments {
  created : list note;
  temp_comments : list note;
  deleted : list note;
  removal_failures : list exn
}.

(** [publish_comment] *)
Definition publish_comment (S : notes_server) (mr_comment : string)
    (is_temporary : bool) (st : comments) : result unit * comments :=
  match notes_create S (created st) mr_comment with
  | Raise e => (Raise e, st)
  | Return comment =>
      (Return tt,
       mkComments (created st ++ [comment])
                  (if is_temporary then temp_comments st ++ [comment]
                   else temp_comments st)
                  (deleted st) (removal_failures st))
  end.

(** The loop of [remove_initial_comment]. *)
Fixpoint delete_comments (S : notes_server) (cs : list note) (st : comments)
  : result unit * comments :=
  match cs with
  | [] => (Return tt, st)
  | comment :: cs' =>
      match note_delete S (deleted st) comment with
      | Some e => (Raise e, st)
      | None =>
          delete_comments S cs'
            (mkComments (created st) (temp_comments st)
                        (deleted st ++ [comment]) (removal_failures st))
      end
  end.

(** [remove_initial_comment]: the loop inside [try], the failure logged. *)
Definition remove_initial_comment (S : notes_server) (st : comments)
  : result unit * comments :=
  match delete_comments S (temp_comments st) st with
  | (Return _, st') => (Return tt, st')
  | (Raise e, st') =>
      (Return tt,
       mkComments (created st') (temp_comments st') (deleted st')
                  (removal_failures st' ++ [e]))
  end.

(** Publishing a list of comments, each with its flag, one after the
    other. *)
Fixpoint publish_comments (S : notes_server) (cs : list (string * bool))
    (st : comments) : result unit * comments :=
  match cs with
  | [] => (Return tt, st)
  | (body, flag) :: cs' =>
      match publish_comment S body flag st with
      | (Return _, st') => publish_comments S cs' st'
      | (Raise e, st') => (Raise e, st')
      end
  end.

(** A server that numbers the notes and refuses no request, and one that
    refuses to delete the note numbered 1. *)
Definition numbering_server : notes_server :=
  mkNotesServer (fun ns body => Return (mkNote (Z.of_nat (length ns)) body))
                (fun _ _ => None).

Definition refusing_server : notes_server :=
  mkNotesServer (fun ns body => Return (mkNote (Z.of_nat (length ns)) body))
                (fun _ n => if note_id n =? 1 then Some (GitlabError "403")
                            else None).

Definition no_comments : comments := mkComments [] [] [] [].

(** The notes of [new] whose flag in [flags] is set. *)
Definition flagged (new : list note) (flags : list bool) : list note :=
  fst <$> List.filter snd (combine new flags).

(** ** The path of a merge request URL *)

(** The three [ValueError]s of [_parse_merge_request_url]. *)
Inductive url_error : Type :=
| NotMergeRequestURL
| NoMergeRequestID
| IDNotInteger.

Definition is_slash (c : ascii) : bool := Ascii.eqb c "/".

(** [s.lstrip('/')] and [s.rstrip('/')] *)
Fixpoint lstrip_slash (s : string) : string :=
  match s with
  | EmptyString => EmptyString
  | String c s' => if is_slash c then lstrip_slash s' else s
  end.

Fixpoint rstrip_slash (s : string) : string :=
  match s with
  | EmptyString => EmptyString
  | String c s' =>
      match rstrip_slash s' with
      | EmptyString => if is_slash c then EmptyString else String c EmptyString
      | r => String c r
      end
  end.

(** [s.strip('/')] *)
Definition strip_slash (s : string) : string := rstrip_slash (lstrip_slash s).

(** [s.split('/')]: never empty; two slashes in a row give an empty
    part. *)
Fixpoint split_slash (s : string) : list string :=
  match s with
  | EmptyString => [EmptyString]
  | String c s' =>
      if is_slash c then EmptyString :: split_slash s'
      else match split_slash s' with
           | x :: xs => String c x :: xs
           | [] => [String c EmptyString]
           end
  end.

(** [l.index(x)], [None] when [x not in l]. *)
Fixpoint list_index (x : string) (l : list string) : option nat :=
  match l with
  | [] => None
  | y :: l' => if String.eqb y x then Some O else S <$> list_index x l'
  end.

(** [s.endswith(suffix)] *)
Fixpoint endswith (suffix s : string) : bool :=
  String.eqb s suffix
  || match s with
     | EmptyString => false
     | String _ s' => endswith suffix s'
     end.

(** [s[:-2]] *)
Definition drop_last_two (s : string) : string :=
  String.substring 0 (String.length s - 2) s.

(** The special delimiter: a project path that ends with [/-] loses
    it. *)
Definition without_delimiter (project_path : string) : string :=
  if endswith "/-" project_path then drop_last_two project_path
  else project_path.

(** [_parse_merge_request_url], from the path that [urlparse] finds in the
    URL.  [py_int] is the conversion [int] of a string: [None] stands for
    its [ValueError]. *)
Definition parse_merge_request_path (py_int : string -> option Z)
    (path : string) : url_error + (string * Z) :=
  let path_parts := split_slash (strip_slash path) in
  match list_index "merge_requests" path_parts with
  | None => inl NotMergeRequestURL
  | Some mr_index =>
      if (length path_parts <=? mr_index + 1)%nat then inl NoMergeRequestID
      else
        match path_parts !! (mr_index + 1)%nat with
        | None => inl NoMergeRequestID
        | Some part =>
            match py_int part with
            | None => inl IDNotInteger
            | Some mr_id =>
                let project_path :=
                  String.concat "/" (take mr_index path_parts) in
                inr (without_delimiter project_path, mr_id)
            end
        end
  end.

(** A path part: not empty, without slash. *)
Fixpoint no_slash (s : string) : bool :=
  match s with
  | EmptyString => true
  | String c s' => negb (is_slash c) && no_slash s'
  end.

Definition part_ok (s : string) : Prop := s <> "" /\ no_slash s = true.

(** A conversion that reads strings of digits as [int] does. *)
Definition reads_digits (py_int : string -> option Z) : Prop :=
  forall ds, ds <> "" -> all_digits ds = true -> py_int ds = Some (Py.int ds).

(** The conversion that accepts strings of digits and nothing else. *)
Definition int_of_digits (s : string) : option Z :=
  match s with
  | EmptyString => None
  | _ => if all_digits s then Some (Py.int s) else None
  end.






(** A renamed file whose old name is the empty string. *)
Definition unnamed_change : change :=
  mkChange "" "b.py" false false true "".

Definition unnamed_file : FilePatchInfo :=
  mkFilePatchInfo (CStr "") (CStr "") "" "b.py" RENAMED (Some "").

(** * Properties *)

(** ** Strings *)

Lemma startswith_nil (s : string) : Py.startswith "" s = true.
Proof. destruct s; reflexivity. Qed.

Lemma contains_nil (s : string) : Py.contains "" s = true.
Proof. destruct s; reflexivity. Qed.

Lemma startswith_char (a c : ascii) (r : string) :
  Py.startswith (String a "") (String c r) = Ascii.eqb c a.
Proof.
  simpl. rewrite andb_true_r. apply Ascii.eqb_sym.
Qed.

Lemma contains_false_nonempty (sub s : string) :
  Py.contains sub s = false -> exists c r, sub = String c r.
Proof.
  destruct sub as [|c r]; [rewrite contains_nil; discriminate | eauto].
Qed.

(** ** The loop of [find_in_file], line by line *)

Lemma rbind_return {A B} (a : A) (k : A -> result B) :
  (Return a ≫= k) = k a.
Proof. reflexivity. Qed.

(** The second test of the loop reads [relevant_line_in_file[0]] only when
    the reference is not empty. *)
Lemma second_test (ref line : string) (X : Type) (hit miss : result X) :
  Py.contains ref line = false ->
  (c ← Py.getitem0 ref;
   if Ascii.eqb c "+" && Py.contains (Py.lstrip (Py.slice_from1 ref)) line
   then hit else miss)
  = if Py.startswith "+" ref && Py.contains (stripped ref) line
    then hit else miss.
Proof.
  intros H. destruct (contains_false_nonempty _ _ H) as (c & r & ->).
  rewrite startswith_char. reflexivity.
Qed.

Lemma body_pass (ref line : string) (st : locals) :
  candidate ref line = false ->
  find_in_file_body ref line st = Return (Next, pass_line line st).
Proof.
  unfold candidate, line_matches, find_in_file_body, pass_line.
  destruct (Py.startswith "@@" line) eqn:Hh; cbn [negb andb].
  - intros _. destruct (RE_HUNK_HEADER_match line); reflexivity.
  - intros H. apply orb_false_iff in H as [H1 H2].
    rewrite H1, (second_test _ _ _ _ _ H1), H2. reflexivity.
Qed.

Lemma body_stop (ref line : string) (st : locals) :
  candidate ref line = true ->
  find_in_file_body ref line st = matched line (count_line line st).
Proof.
  unfold candidate, line_matches, find_in_file_body.
  destruct (Py.startswith "@@" line) eqn:Hh; cbn [negb andb];
    [discriminate |].
  intros H. destruct (Py.contains ref line) eqn:H1; [reflexivity |].
  cbn [orb] in H. rewrite (second_test _ _ _ _ _ H1), H. reflexivity.
Qed.

Lemma pass_line_content (line : string) (st : locals) :
  Py.startswith "@@" line = false -> pass_line line st = count_line line st.
Proof. unfold pass_line. intros ->. reflexivity. Qed.

Lemma pass_lines_app (xs ys : list string) (st : locals) :
  pass_lines (xs ++ ys) st = pass_lines ys (pass_lines xs st).
Proof. unfold pass_lines. apply fold_left_app. Qed.

(** Lines at which the loop does not stop only move the counters. *)
Lemma for_each_pass (ref : string) (pre rest : list string) (st : locals) :
  Forall (fun x => candidate ref x = false) pre ->
  for_each (find_in_file_body ref) (pre ++ rest) st
  = for_each (find_in_file_body ref) rest (pass_lines pre st).
Proof.
  intros H. revert st. induction H as [|x pre Hx _ IH]; intros st.
  - reflexivity.
  - simpl. rewrite (body_pass _ _ _ Hx). apply IH.
Qed.

(** The loop stops at the first candidate. *)
Lemma for_each_stop (ref l : string) (post : list string) (st : locals) :
  candidate ref l = true ->
  for_each (find_in_file_body ref) (l :: post) st
  = (et ← get_edit_type l;
     Return (mkLocals et (l_source_line_no (pass_line l st))
                      (l_target_line_no (pass_line l st)) true)).
Proof.
  intros H. simpl. rewrite (body_stop _ _ _ H).
  assert (Hh : Py.startswith "@@" l = false).
  { unfold candidate in H. destruct (Py.startswith "@@" l); [discriminate | reflexivity]. }
  rewrite (pass_line_content _ _ Hh). unfold matched.
  destruct (get_edit_type l); reflexivity.
Qed.

Lemma pass_line_keeps (line : string) (st : locals) :
  l_edit_type (pass_line line st) = l_edit_type st
  /\ l_found (pass_line line st) = l_found st.
Proof.
  unfold pass_line, count_line.
  destruct (Py.startswith "@@" line); [destruct (RE_HUNK_HEADER_match line)|];
    repeat match goal with |- context [if ?b then _ else _] => destruct b end;
    split; reflexivity.
Qed.

Lemma pass_lines_keeps (lines : list string) (st : locals) :
  l_edit_type (pass_lines lines st) = l_edit_type st
  /\ l_found (pass_lines lines st) = l_found st.
Proof.
  revert st. induction lines as [|x xs IH]; intros st; [split; reflexivity |].
  change (pass_lines (x :: xs) st) with (pass_lines xs (pass_line x st)).
  destruct (IH (pass_line x st)) as [-> ->]. apply pass_line_keeps.
Qed.

(** The whole scan, in terms of the first candidate. *)
Lemma find_in_lines_stop (ref : string) (pre : list string) (l : string)
    (post : list string) :
  Forall (fun x => candidate ref x = false) pre ->
  candidate ref l = true ->
  find_in_lines ref (pre ++ l :: post)
  = (et ← get_edit_type l;
     let st := pass_lines (pre ++ [l]) find_in_file_init in
     Return (mkLocals et (l_source_line_no st) (l_target_line_no st) true)).
Proof.
  intros Hpre Hl. unfold find_in_lines.
  rewrite (for_each_pass _ _ _ _ Hpre), (for_each_stop _ _ _ _ Hl).
  rewrite pass_lines_app. reflexivity.
Qed.

Lemma find_in_lines_none (ref : string) (lines : list string) :
  Forall (fun x => candidate ref x = false) lines ->
  find_in_lines ref lines = Return (pass_lines lines find_in_file_init).
Proof.
  intros H. unfold find_in_lines.
  rewrite <- (app_nil_r lines) at 1.
  rewrite (for_each_pass _ _ _ _ H). reflexivity.
Qed.

(** ** The concrete scenario *)

(** Claim C1, as amended.  On the scenario patch [find_in_file] returns:
    for "new line A" a found addition with target line number 3; for
    "old line" a found deletion with source line number 3; for "context1"
    a found context line with source and target line numbers 2; and for
    "missing text" nothing found.  The counters are read after the
    increment for the matched line, starting from the values of the hunk
    header, so each is one more than the line's number in its file. *)
Theorem scenario_locate :
  find_in_file scenario_file "new line A"
    = Return ("addition", true, 3, scenario_file, 3)
  /\ find_in_file scenario_file "old line"
    = Return ("deletion", true, 3, scenario_file, 2)
  /\ find_in_file scenario_file "context1"
    = Return ("context", true, 2, scenario_file, 2)
  /\ find_in_file scenario_file "missing text"
    = Return ("context", false, 4, scenario_file, 5).
Proof. repeat split; vm_compute; reflexivity. Qed.

(** Claim C1, as stated, fails: the source line number returned for
    "old line" is not 2, and the line numbers for "context1" are not 1. *)
Lemma scenario_locate_not_as_stated :
  (forall t, find_in_file scenario_file "old line"
             <> Return ("deletion", true, 2, scenario_file, t))
  /\ find_in_file scenario_file "context1"
     <> Return ("context", true, 1, scenario_file, 1).
Proof.
  assert (Hold : find_in_file scenario_file "old line"
                 = Return ("deletion", true, 3, scenario_file, 2))
    by (vm_compute; reflexivity).
  assert (Hctx : find_in_file scenario_file "context1"
                 = Return ("context", true, 2, scenario_file, 2))
    by (vm_compute; reflexivity).
  rewrite Hold, Hctx. split; [intros t|]; intros H; inversion H.
Qed.

(** ** Lines without a sigil *)

Lemma other_line_pass (line : string) (st : locals) :
  other_line line = true -> pass_line line st = st.
Proof.
  unfold other_line, leading_sigil, is_hunk_header, pass_line, count_line.
  intros H. apply andb_true_iff in H as [Hs Hh].
  apply negb_true_iff in Hs.
  apply orb_false_iff in Hs as [Hs Hsp]. apply orb_false_iff in Hs as [Hm Hp].
  rewrite Hm, Hp, Hsp.
  destruct (RE_HUNK_HEADER_match line); [discriminate |].
  destruct (Py.startswith "@@" line); reflexivity.
Qed.

Lemma other_line_edit_type (line : string) :
  other_line line = true -> line <> "" -> get_edit_type line = Return "context".
Proof.
  unfold other_line, leading_sigil. intros H Hne.
  destruct line as [|c r]; [congruence |].
  rewrite !startswith_char in H.
  apply andb_true_iff in H as [Hs _]. apply negb_true_iff in Hs.
  apply orb_false_iff in Hs as [Hs _]. apply orb_false_iff in Hs as [Hm Hp].
  unfold get_edit_type. cbn [Py.getitem0 mbind result_bind].
  rewrite Hm, Hp. reflexivity.
Qed.

Lemma for_each_drop_passed (ref x : string) (pre post : list string)
    (st : locals) :
  candidate ref x = false ->
  (forall st', pass_line x st' = st') ->
  for_each (find_in_file_body ref) (pre ++ x :: post) st
  = for_each (find_in_file_body ref) (pre ++ post) st.
Proof.
  intros Hx Hid. revert st. induction pre as [|a pre IH]; intros st.
  - simpl. rewrite (body_pass _ _ _ Hx), Hid. reflexivity.
  - simpl. destruct (find_in_file_body ref a st) as [[[] st']|]; auto.
Qed.

(** Claim C2, as amended.  A patch line whose leading character is none of
    '-', '+', ' ' and which is not a hunk header never changes the two
    line counters.  It is passed over, and may be removed from the patch
    without changing the outcome, when it begins with [@@] or contains
    neither the reference nor (for a reference that begins with '+') the
    stripped reference; otherwise the loop stops at it and a non-empty
    such line is returned as the match, with edit type 'context'. *)
Theorem other_line_counters (ref line : string) (st : locals) :
  other_line line = true ->
  (forall fl st', find_in_file_body ref line st = Return (fl, st') ->
     l_source_line_no st' = l_source_line_no st
     /\ l_target_line_no st' = l_target_line_no st)
  /\ (candidate ref line = false ->
      find_in_file_body ref line st = Return (Next, st)
      /\ forall pre post,
           find_in_lines ref (pre ++ line :: post)
           = find_in_lines ref (pre ++ post))
  /\ (candidate ref line = true -> line <> "" ->
      find_in_file_body ref line st
      = Return (Break, mkLocals "context" (l_source_line_no st)
                                (l_target_line_no st) true)).
Proof.
  intros Ho.
  assert (Hstop : candidate ref line = true ->
                  find_in_file_body ref line st = matched line st).
  { intros Hc. rewrite (body_stop _ _ _ Hc).
    assert (Hh : Py.startswith "@@" line = false).
    { unfold candidate in Hc.
      destruct (Py.startswith "@@" line); [discriminate | reflexivity]. }
    rewrite <- (pass_line_content _ _ Hh), (other_line_pass _ _ Ho).
    reflexivity. }
  split; [| split].
  - intros fl st' H. destruct (candidate ref line) eqn:Hc.
    + rewrite (Hstop eq_refl) in H. unfold matched in H.
      destruct (get_edit_type line); inversion H; subst. split; reflexivity.
    + rewrite (body_pass _ _ _ Hc), (other_line_pass _ _ Ho) in H.
      inversion H; subst. split; reflexivity.
  - intros Hc. split.
    + rewrite (body_pass _ _ _ Hc), (other_line_pass _ _ Ho). reflexivity.
    + intros pre post. unfold find_in_lines.
      apply for_each_drop_passed; [exact Hc |].
      intros st'. apply other_line_pass, Ho.
  - intros Hc Hne. rewrite (Hstop Hc). unfold matched.
    rewrite (other_line_edit_type _ Ho Hne). reflexivity.
Qed.

Lemma other_line_counters_witness :
  find_in_file_body "No newline" "\ No newline at end of file"
    find_in_file_init
  = Return (Break, mkLocals "context" 0 0 true).
Proof.
  refine (proj2 (proj2 (other_line_counters "No newline"
            "\ No newline at end of file" find_in_file_init eq_refl))
            eq_refl _).
  discriminate.
Defined.

(** Claim C2, as stated, fails: the marker of a missing final newline is a
    line of the kind [other], and the loop stops at it and reports it as
    found when the reference is part of its text. *)
Lemma other_line_can_match :
  other_line "\ No newline at end of file" = true
  /\ find_in_file_body "No newline" "\ No newline at end of file"
       find_in_file_init
     <> Return (Next, find_in_file_init)
  /\ filter (fun l => Py.contains "No newline" l)
       (Py.splitlines (patch marker_file))
     = ["\ No newline at end of file"]
  /\ find_in_file marker_file "No newline"
     = Return ("context", true, 2, marker_file, 2).
Proof.
  split; [reflexivity |]. split; [| split; vm_compute; reflexivity].
  vm_compute. intros H; inversion H.
Qed.

(** ** The reference with a leading plus sign *)

Lemma candidate_plus (ref x : string) :
  Py.startswith "+" ref = true ->
  candidate ref x
  = negb (Py.startswith "@@" x)
    && (Py.contains ref x || Py.contains (stripped ref) x).
Proof. unfold candidate, line_matches. intros ->. reflexivity. Qed.

Lemma not_candidate_plus (ref x : string) :
  Py.startswith "+" ref = true ->
  Py.startswith "@@" x = true
  \/ (Py.contains ref x = false /\ Py.contains (stripped ref) x = false) ->
  candidate ref x = false.
Proof.
  intros Hp H. rewrite (candidate_plus _ _ Hp).
  destruct H as [-> | [-> ->]]; [reflexivity |].
  apply andb_false_r.
Qed.

(** Claim C3, as amended.  For a reference that begins with '+' there is
    one scan, and both tests are made on each line: the match is the first
    line, in document order and not beginning with [@@], that contains the
    full reference or the reference with its leading '+' removed and
    left-trimmed; its edit type is that of the matched line and the
    counters are those reached at it.  When no line passes either test
    nothing is found. *)
Theorem plus_reference_first_line (file : FilePatchInfo) (ref : string) :
  Py.startswith "+" ref = true ->
  (forall pre l post,
     Py.splitlines (patch file) = (pre ++ l :: post)%list ->
     Forall (fun x => Py.startswith "@@" x = true
                      \/ (Py.contains ref x = false
                          /\ Py.contains (stripped ref) x = false)) pre ->
     Py.startswith "@@" l = false ->
     Py.contains ref l = true \/ Py.contains (stripped ref) l = true ->
     find_in_file file ref
     = (et ← get_edit_type l;
        let st := pass_lines (pre ++ [l]) find_in_file_init in
        Return (et, true, l_source_line_no st, file, l_target_line_no st)))
  /\ (Forall (fun x => Py.startswith "@@" x = true
                       \/ (Py.contains ref x = false
                           /\ Py.contains (stripped ref) x = false))
             (Py.splitlines (patch file)) ->
      let st := pass_lines (Py.splitlines (patch file)) find_in_file_init in
      find_in_file file ref
      = Return ("context", false, l_source_line_no st, file,
                l_target_line_no st)).
Proof.
  intros Hp. split.
  - intros pre l post Hsplit Hpre Hh Hl. unfold find_in_file. rewrite Hsplit.
    rewrite find_in_lines_stop.
    + destruct (get_edit_type l); reflexivity.
    + eapply Forall_impl; [exact Hpre |].
      intros x Hx. apply not_candidate_plus; assumption.
    + rewrite (candidate_plus _ _ Hp), Hh.
      destruct Hl as [-> | ->]; [reflexivity | apply orb_true_r].
  - intros Hall st. unfold find_in_file. rewrite find_in_lines_none.
    + fold st. cbn [mbind result_bind].
      destruct (pass_lines_keeps (Py.splitlines (patch file))
                  find_in_file_init) as [He Hf].
      fold st in He, Hf. rewrite He, Hf. reflexivity.
    + eapply Forall_impl; [exact Hall |].
      intros x Hx. apply not_candidate_plus; assumption.
Qed.

Lemma plus_reference_first_line_witness :
  find_in_file shadow_file "+foo"
  = Return ("context", true, 2, shadow_file, 2).
Proof.
  refine (proj1 (plus_reference_first_line shadow_file "+foo" eq_refl)
            ["@@ -1,1 +1,2 @@"] " foo" ["+foo"] eq_refl _ eq_refl
            (or_intror eq_refl)).
  repeat constructor.
Defined.

(** Claim C3, as stated, fails: the fallback is no second scan.  In a
    patch whose context line " foo" precedes the added line "+foo", the
    reference "+foo" is matched at the context line, through the stripped
    reference, although the later line contains the full reference; two
    scans would have returned the added line. *)
Lemma fallback_is_not_a_second_scan :
  Py.splitlines (patch shadow_file) = ["@@ -1,1 +1,2 @@"; " foo"; "+foo"]
  /\ Py.contains "+foo" " foo" = false
  /\ Py.contains "+foo" "+foo" = true
  /\ two_scan_locate "+foo" (Py.splitlines (patch shadow_file))
     = Return (mkLocals "addition" 2 3 true)
  /\ find_in_lines "+foo" (Py.splitlines (patch shadow_file))
     = Return (mkLocals "context" 2 2 true)
  /\ find_in_lines "+foo" (Py.splitlines (patch shadow_file))
     <> two_scan_locate "+foo" (Py.splitlines (patch shadow_file)).
Proof.
  repeat split; try (vm_compute; reflexivity).
  vm_compute. intros H; inversion H.
Qed.

(** ** Sending a position *)

(** Claim C4, as amended.  Called with [found] false,
    [send_inline_comment] builds no position and publishes no discussion;
    it raises nothing either: it writes one informational record to the
    log and returns. *)
Theorem not_found_is_only_logged (E : environment) (body edit_type : string)
    (relevant_file relevant_line_in_file source_line_no : pyval)
    (target_file : option FilePatchInfo) (target_line_no : pyval)
    (self : GitLabProvider) :
  send_inline_comment E body edit_type false relevant_file
    relevant_line_in_file source_line_no target_file target_line_no self
  = (Return tt,
     add_log (LogInfo_no_position relevant_file relevant_line_in_file) self)
  /\ discussions
       (snd (send_inline_comment E body edit_type false relevant_file
               relevant_line_in_file source_line_no target_file
               target_line_no self))
     = discussions self.
Proof. split; reflexivity. Qed.

(** Claim C4, as stated, fails: with [found] false the call returns
    normally; no exception reaches the caller. *)
Lemma not_found_does_not_raise :
  fst (send_inline_comment scenario_env "note" "context" false
         (PStr "src/app.py") (PStr "missing text") (PInt 4)
         (Some scenario_file) (PInt 5) scenario_provider)
  = Return tt
  /\ ~ (exists e,
          fst (send_inline_comment scenario_env "note" "context" false
                 (PStr "src/app.py") (PStr "missing text") (PInt 4)
                 (Some scenario_file) (PInt 5) scenario_provider)
          = Raise e).
Proof.
  split; [reflexivity |]. intros [e H]. discriminate H.
Qed.

Lemma old_path_of_unset (f : FilePatchInfo) :
  old_filename f = None -> old_path_of f = filename f.
Proof. unfold old_path_of. intros ->. reflexivity. Qed.

Lemma old_path_of_set (f : FilePatchInfo) (o : string) :
  old_filename f = Some o -> o <> "" -> old_path_of f = o.
Proof.
  unfold old_path_of. intros -> Hne. destruct o; [congruence | reflexivity].
Qed.

Lemma old_path_of_built (f : FilePatchInfo) (d : change) :
  built_from f d -> old_path d <> "" -> old_path_of f = old_path d.
Proof.
  intros (Hn & _ & _ & Ho) Hne. unfold old_filename_of in Ho.
  destruct (String.eqb_spec (old_path d) (new_path d)) as [Heq | Hdiff].
  - rewrite (old_path_of_unset _ Ho). congruence.
  - apply (old_path_of_set _ _ Ho Hne).
Qed.

Lemma old_path_of_empty (f : FilePatchInfo) :
  old_filename f = Some "" -> old_path_of f = filename f.
Proof. unfold old_path_of. intros ->. reflexivity. Qed.

Lemma old_path_of_built_any (f : FilePatchInfo) (d : change) :
  built_from f d ->
  old_path_of f
  = if String.eqb (old_path d) (new_path d) || String.eqb (old_path d) ""
    then new_path d else old_path d.
Proof.
  intros (Hn & _ & _ & Ho). unfold old_filename_of in Ho.
  destruct (String.eqb_spec (old_path d) (new_path d)) as [Heq | Hdiff].
  - rewrite (old_path_of_unset _ Ho). exact Hn.
  - cbn [orb]. destruct (String.eqb_spec (old_path d) "") as [He | Hne].
    + rewrite He in Ho. rewrite (old_path_of_empty _ Ho). exact Hn.
    + apply (old_path_of_set _ _ Ho Hne).
Qed.

(** The monad of methods, step by step. *)
Lemma bind_unfold {A B} (m : M A) (k : A -> M B) (self : GitLabProvider) :
  (m ≫= k) self
  = match m self with
    | (Return a, self') => k a self'
    | (Raise e, self') => (Raise e, self')
    end.
Proof. reflexivity. Qed.

Lemma bind_get_self {B} (k : GitLabProvider -> M B) (self : GitLabProvider) :
  (get_self ≫= k) self = k self self.
Proof. reflexivity. Qed.

Lemma bind_lift {A B} (r : result A) (k : A -> M B) (self : GitLabProvider) :
  (lift r ≫= k) self
  = match r with
    | Return a => k a self
    | Raise e => (Raise e, self)
    end.
Proof. destruct r; reflexivity. Qed.

Lemma bind_modify {B} (f : GitLabProvider -> GitLabProvider)
    (k : unit -> M B) (self : GitLabProvider) :
  (modify f ≫= k) self = k tt (f self).
Proof. reflexivity. Qed.

Lemma send_found (E : environment) (self : GitLabProvider)
    (body edit_type : string) (relevant_file relevant_line_in_file : pyval)
    (source_line_no target_line_no : pyval)
    (target_file : option FilePatchInfo) (pos : gmap string pyval) :
  build_pos_obj (last_diff self) edit_type source_line_no target_file
    target_line_no = Return pos ->
  discussions_create E (discussions self) (mkDiscussion body pos) = None ->
  send_inline_comment E body edit_type true relevant_file
    relevant_line_in_file source_line_no target_file target_line_no self
  = (Return tt,
     add_discussion (mkDiscussion body pos)
       (add_log (LogDebug_creating (id_mr self) body pos) self)).
Proof.
  intros Hpos Hcreate. unfold send_inline_comment.
  cbn [negb]. rewrite bind_get_self, bind_lift, Hpos. unfold logging.
  rewrite bind_modify. unfold mr_discussions_create.
  cbn [discussions add_log]. rewrite Hcreate. reflexivity.
Qed.
(** Claim C5.  For a found match the mapping built by
    [send_inline_comment] has, for 'addition', only [new_line], equal to
    [target_line_no - 1]; for 'deletion', only [old_line], equal to
    [source_line_no - 1]; otherwise both keys, each offset by -1.  Its
    [old_path] is the old file name of the entry when that is set and not
    the empty string, and the new path when it is unset or empty; for an
    entry built from a change it is the old path of the change when that
    differs from the new path and is not empty, and the new path
    otherwise.  This mapping is the position of the discussion that is
    created.  For the addition match of the scenario, [new_line] is 2 and
    [old_line] is not set. *)
Theorem position_by_edit_type (E : environment) (self : GitLabProvider)
    (body edit_type : string) (relevant_file relevant_line_in_file : pyval)
    (source_line_no target_line_no : Z) (target_file : FilePatchInfo) :
  (exists pos : gmap string pyval,
    build_pos_obj (last_diff self) edit_type (PInt source_line_no)
      (Some target_file) (PInt target_line_no) = Return pos
    /\ pos !! "new_path" = Some (PStr (filename target_file))
    /\ (old_filename target_file = None ->
        pos !! "old_path" = Some (PStr (filename target_file)))
    /\ (forall o, old_filename target_file = Some o -> o <> "" ->
        pos !! "old_path" = Some (PStr o))
    /\ (forall d, built_from target_file d -> old_path d <> "" ->
        pos !! "old_path"
        = Some (PStr (if String.eqb (old_path d) (new_path d)
                      then new_path d else old_path d)))
    /\ (old_filename target_file = Some "" ->
        pos !! "old_path" = Some (PStr (filename target_file)))
    /\ (forall d, built_from target_file d ->
        pos !! "old_path"
        = Some (PStr (if String.eqb (old_path d) (new_path d)
                         || String.eqb (old_path d) ""
                      then new_path d else old_path d)))
    /\ (edit_type = "addition" ->
        pos !! "new_line" = Some (PInt (target_line_no - 1))
        /\ pos !! "old_line" = None)
    /\ (edit_type = "deletion" ->
        pos !! "old_line" = Some (PInt (source_line_no - 1))
        /\ pos !! "new_line" = None)
    /\ (edit_type <> "addition" -> edit_type <> "deletion" ->
        pos !! "new_line" = Some (PInt (target_line_no - 1))
        /\ pos !! "old_line" = Some (PInt (source_line_no - 1)))
    /\ (discussions_create E (discussions self) (mkDiscussion body pos) = None ->
        send_inline_comment E body edit_type true relevant_file
          relevant_line_in_file (PInt source_line_no) (Some target_file)
          (PInt target_line_no) self
        = (Return tt,
           add_discussion (mkDiscussion body pos)
             (add_log (LogDebug_creating (id_mr self) body pos) self))))
  /\ (exists pos : gmap string pyval,
        (r ← find_in_file scenario_file "new line A";
         let '(et, _, src, tf, tgt) := r in
         build_pos_obj (last_diff self) et (PInt src) (Some tf) (PInt tgt))
        = Return pos
        /\ pos !! "new_line" = Some (PInt 2)
        /\ pos !! "old_line" = None).
Proof.
  assert (Hold : forall (pos : gmap string pyval) (p : string),
            pos !! "old_path" = Some (PStr (old_path_of target_file)) ->
            old_path_of target_file = p ->
            pos !! "old_path" = Some (PStr p)).
  { intros pos p H <-. exact H. }
  split.
  - unfold build_pos_obj. cbn [getattr_file]. rewrite rbind_return.
    destruct (String.eqb_spec edit_type "deletion") as [Hd | Hd];
      [| destruct (String.eqb_spec edit_type "addition") as [Ha | Ha]];
      cbn [py_sub]; rewrite ?rbind_return;
      (eexists; split; [reflexivity |]).
    all: repeat match goal with |- _ /\ _ => split end.
    all: try (intros; subst; congruence).
    all: try (intros; apply send_found; [| assumption];
              unfold build_pos_obj; cbn [getattr_file]; rewrite rbind_return;
              subst; try rewrite (proj2 (String.eqb_neq _ _) Hd);
              try rewrite (proj2 (String.eqb_neq _ _) Ha);
              reflexivity).
    all: try (intros; try split;
              repeat (rewrite lookup_insert_ne by discriminate);
              rewrite ?lookup_insert_eq, ?lookup_empty; reflexivity).
    all: intros; apply Hold;
      [ repeat (rewrite lookup_insert_ne by discriminate);
        rewrite lookup_insert_eq; reflexivity
      | first [ apply old_path_of_unset; assumption
              | apply old_path_of_set; assumption
              | apply old_path_of_empty; assumption
              | apply old_path_of_built_any; assumption
              | rewrite (old_path_of_built _ _ ltac:(eassumption) ltac:(assumption));
                destruct (String.eqb_spec (old_path d) (new_path d));
                congruence ] ].
  - assert (Hnew : find_in_file scenario_file "new line A"
                   = Return ("addition", true, 3, scenario_file, 3))
      by (vm_compute; reflexivity).
    rewrite Hnew, rbind_return.
    unfold build_pos_obj. cbn [getattr_file]. rewrite rbind_return.
    cbn [String.eqb Ascii.eqb Bool.eqb py_sub Z.sub Z.add Z.opp Z.pos_sub
         Pos.pred_double].
    rewrite rbind_return. eexists. split; [reflexivity |].
    split; repeat (rewrite lookup_insert_ne by discriminate);
      rewrite ?lookup_insert_eq, ?lookup_empty; reflexivity.
Qed.

(** Claim C5, as stated, fails for an entry whose old file name is the
    empty string: the old name differs from the new path, yet [old_path]
    is the new path, not the old name. *)
Lemma position_old_path_not_as_stated :
  built_from unnamed_file unnamed_change
  /\ old_path unnamed_change <> new_path unnamed_change
  /\ old_filename unnamed_file = Some (old_path unnamed_change)
  /\ exists pos : gmap string pyval,
       build_pos_obj (last_diff scenario_provider) "addition" (PInt 3)
         (Some unnamed_file) (PInt 3) = Return pos
       /\ pos !! "old_path" = Some (PStr (new_path unnamed_change))
       /\ pos !! "old_path" <> Some (PStr (old_path unnamed_change)).
Proof.
  split; [repeat split |]. split; [discriminate |].
  split; [reflexivity |].
  unfold build_pos_obj. cbn [getattr_file]. rewrite rbind_return.
  cbn [String.eqb Ascii.eqb Bool.eqb py_sub]. rewrite rbind_return.
  eexists. split; [reflexivity |].
  repeat (rewrite lookup_insert_ne by discriminate).
  rewrite lookup_insert_eq. split; [reflexivity | discriminate].
Qed.

(** ** Looking a line up in the catalog *)

Lemma search_line_body_other (path ref : string) (f : FilePatchInfo)
    (st : search_locals) :
  filename f <> path -> search_line_body path ref f st = Return (Next, st).
Proof.
  intros H. unfold search_line_body.
  rewrite (proj2 (String.eqb_neq _ _) H). reflexivity.
Qed.

Lemma for_each_search_others (path ref : string) (files : list FilePatchInfo)
    (st : search_locals) :
  Forall (fun f => filename f <> path) files ->
  for_each (search_line_body path ref) files st = Return st.
Proof.
  intros H. induction H as [|f files Hf _ IH]; [reflexivity |].
  simpl. rewrite (search_line_body_other _ _ _ _ Hf). exact IH.
Qed.

Lemma get_edit_type_nonempty (c : ascii) (r : string) :
  exists et, get_edit_type (String c r) = Return et.
Proof.
  unfold get_edit_type. cbn [Py.getitem0]. rewrite rbind_return.
  destruct (Ascii.eqb c "-"); [eauto |]. rewrite rbind_return.
  destruct (Ascii.eqb c "+"); eauto.
Qed.

(** Claim C6.  When no entry of [diff_files] has the requested file name,
    [search_line] returns no result, found or not: it raises.  The name
    [found] is bound only in the branch of a matching file, so the return
    statement fails on it; for an empty reference the classification of
    the reference fails before the loop. *)
Theorem search_line_needs_an_entry (self : GitLabProvider)
    (files : list FilePatchInfo) (relevant_file relevant_line_in_file : string) :
  diff_files self = Some files ->
  Forall (fun f => filename f <> relevant_file) files ->
  search_line self relevant_file relevant_line_in_file
  = match relevant_line_in_file with
    | EmptyString => Raise IndexError
    | String _ _ => Raise (UnboundLocalError "found")
    end.
Proof.
  intros Hfiles Hnone. unfold search_line.
  destruct relevant_line_in_file as [|c r]; [reflexivity |].
  destruct (get_edit_type_nonempty c r) as [et ->]. rewrite rbind_return.
  unfold iter_diff_files. rewrite Hfiles, rbind_return.
  rewrite (for_each_search_others _ _ _ _ Hnone). reflexivity.
Qed.

Lemma search_line_needs_an_entry_witness :
  search_line scenario_provider "README.md" "context1"
  = Raise (UnboundLocalError "found").
Proof.
  refine (search_line_needs_an_entry scenario_provider [scenario_file]
            "README.md" "context1" eq_refl _).
  repeat constructor. discriminate.
Defined.

(** The loop of [search_line] over entries on which [find_in_file]
    returns. *)
Lemma for_each_search_returns (path ref : string) (files : list FilePatchInfo)
    (st : search_locals) :
  Forall (fun f => filename f = path -> exists r, find_in_file f ref = Return r)
         files ->
  exists st', for_each (search_line_body path ref) files st = Return st'.
Proof.
  intros H. revert st. induction H as [|f files Hf _ IH]; intros st.
  - exists st. reflexivity.
  - simpl. unfold search_line_body at 1.
    destruct (String.eqb_spec (filename f) path) as [Heq | Hne].
    + destruct (Hf Heq) as [[[[[et fnd] src] tf] tgt] ->].
      rewrite rbind_return. apply IH.
    + apply IH.
Qed.

Lemma for_each_app_return {A S} (body : A -> S -> result (flow * S))
    (xs ys : list A) (st st' : S) :
  (forall x s, match body x s with Return (Break, _) => False | _ => True end) ->
  for_each body xs st = Return st' ->
  for_each body (xs ++ ys) st = for_each body ys st'.
Proof.
  intros Hnb. revert st. induction xs as [|x xs IH]; intros st H.
  - simpl in H. inversion H. reflexivity.
  - simpl in *. specialize (Hnb x st).
    destruct (body x st) as [[[] s1]|]; [auto | contradiction | discriminate].
Qed.

Lemma search_line_body_no_break (path ref : string) (f : FilePatchInfo)
    (st : search_locals) :
  match search_line_body path ref f st with
  | Return (Break, _) => False
  | _ => True
  end.
Proof.
  unfold search_line_body. destruct (String.eqb (filename f) path); [| exact I].
  destruct (find_in_file f ref) as [[[[[et fnd] src] tf] tgt]|]; exact I.
Qed.

(** Claim C7, as amended.  For a reference that is not empty, when
    [find_in_file] raises on none of the earlier entries with the
    requested file name, [search_line] gives the outcome of [find_in_file]
    on the last entry with that file name in iteration order: the values
    it returns, or the exception it raises. *)
Theorem search_line_last_entry (self : GitLabProvider)
    (pre : list FilePatchInfo) (last : FilePatchInfo)
    (post : list FilePatchInfo) (relevant_file relevant_line_in_file : string) :
  diff_files self = Some (pre ++ last :: post)%list ->
  filename last = relevant_file ->
  Forall (fun f => filename f <> relevant_file) post ->
  relevant_line_in_file <> "" ->
  Forall (fun f => filename f = relevant_file ->
                   exists r, find_in_file f relevant_line_in_file = Return r)
         pre ->
  search_line self relevant_file relevant_line_in_file
  = (r ← find_in_file last relevant_line_in_file;
     let '(et, fnd, src, tf, tgt) := r in
     Return (et, fnd, src, Some tf, tgt)).
Proof.
  intros Hfiles Hlast Hpost Hne Hpre. unfold search_line.
  destruct relevant_line_in_file as [|c r]; [congruence |].
  destruct (get_edit_type_nonempty c r) as [et0 ->]. rewrite rbind_return.
  unfold iter_diff_files. rewrite Hfiles, rbind_return.
  destruct (for_each_search_returns relevant_file (String c r) pre
              (mkSearch et0 None None None None) Hpre) as [st1 Hst1].
  rewrite (for_each_app_return _ _ _ _ _
             (search_line_body_no_break relevant_file (String c r)) Hst1).
  cbn [for_each]. unfold search_line_body at 1.
  rewrite (proj2 (String.eqb_eq _ _) Hlast).
  destruct (find_in_file last (String c r)) as [[[[[et fnd] src] tf] tgt]|];
    [| reflexivity].
  rewrite !rbind_return.
  rewrite (for_each_search_others _ _ _ _ Hpost). reflexivity.
Qed.

Lemma search_line_last_entry_witness :
  search_line twice_provider "src/app.py" "context1"
  = Return ("context", true, 2, Some scenario_file, 2).
Proof.
  refine (search_line_last_entry twice_provider [shadow_file] scenario_file []
            "src/app.py" "context1" eq_refl eq_refl _ _ _).
  - constructor.
  - discriminate.
  - repeat constructor. intros _. eexists. vm_compute. reflexivity.
Defined.

(** Claim C7, as stated, fails for the empty reference: two entries carry
    the requested file name and [find_in_file] returns a match on the
    last, yet [search_line] raises before it looks at the catalog. *)
Lemma search_line_empty_reference :
  diff_files twice_provider = Some [shadow_file; scenario_file]
  /\ filename shadow_file = "src/app.py"
  /\ filename scenario_file = "src/app.py"
  /\ find_in_file scenario_file ""
     = Return ("context", true, 2, scenario_file, 2)
  /\ search_line twice_provider "src/app.py" "" = Raise IndexError.
Proof. repeat split; vm_compute; reflexivity. Qed.

(** ** Publishing suggestions: one failure does not stop the batch *)

Lemma exceptions_logged_app (l1 l2 : list log_entry) :
  exceptions_logged (l1 ++ l2) = (exceptions_logged l1 + exceptions_logged l2)%nat.
Proof.
  induction l1 as [|e l1 IH]; [reflexivity |].
  destruct e; simpl; rewrite IH; reflexivity.
Qed.

Lemma quiet_ret {A} (a : A) : quiet (mret a).
Proof. intros self r self' H. inversion H. split; reflexivity. Qed.

Lemma quiet_lift {A} (r : result A) : quiet (lift r).
Proof. intros self r' self' H. inversion H. split; reflexivity. Qed.

Lemma quiet_get_self : quiet get_self.
Proof. intros self r self' H. inversion H. split; reflexivity. Qed.

Lemma quiet_set_diff_files (fs : option (list FilePatchInfo)) :
  quiet (modify (set_diff_files fs)).
Proof. intros self r self' H. inversion H. split; reflexivity. Qed.

Lemma quiet_logging (e : log_entry) :
  exceptions_logged [e] = O -> quiet (logging e).
Proof.
  intros He self r self' H. inversion H. split; [reflexivity |].
  cbn [log add_log]. rewrite exceptions_logged_app, He. lia.
Qed.

Lemma quiet_bind {A B} (m : M A) (k : A -> M B) :
  quiet m -> (forall a, quiet (k a)) -> quiet (m ≫= k).
Proof.
  intros Hm Hk self r self' H. rewrite bind_unfold in H.
  destruct (m self) as [[a | e] s1] eqn:E1.
  - destruct (Hm _ _ _ E1) as [<- <-]. exact (Hk a _ _ _ H).
  - inversion H; subst. exact (Hm _ _ _ E1).
Qed.

Lemma quiet_get_diff_files_body (E : environment) (d : change)
    (acc : list FilePatchInfo) : quiet (get_diff_files_body E d acc).
Proof.
  unfold get_diff_files_body.
  destruct (is_valid_file E (new_path d)); [| apply quiet_ret].
  apply quiet_bind; [apply quiet_get_self | intros self].
  apply quiet_bind; [apply quiet_lift | intros original].
  apply quiet_bind; [apply quiet_lift | intros new].
  destruct (decode_contents E original new) as [[o n] warn].
  apply quiet_bind; [| intros _; apply quiet_ret].
  destruct warn; [apply quiet_logging; reflexivity | apply quiet_ret].
Qed.

Lemma quiet_get_diff_files_loop (E : environment) (ds : list change)
    (acc : list FilePatchInfo) : quiet (get_diff_files_loop E ds acc).
Proof.
  revert acc. induction ds as [|d ds IH]; intros acc; [apply quiet_ret |].
  cbn [get_diff_files_loop].
  apply quiet_bind; [apply quiet_get_diff_files_body | intros acc'; apply IH].
Qed.

Lemma quiet_get_diff_files (E : environment) : quiet (get_diff_files E).
Proof.
  unfold get_diff_files.
  apply quiet_bind; [apply quiet_lift | intros ds].
  apply quiet_bind; [apply quiet_get_diff_files_loop | intros fs].
  apply quiet_bind; [apply quiet_set_diff_files | intros _; apply quiet_ret].
Qed.

Lemma quiet_ensure_diff_files (E : environment) : quiet (ensure_diff_files E).
Proof.
  unfold ensure_diff_files.
  apply quiet_bind; [apply quiet_get_self | intros self].
  destruct (diff_files self) as [[|f fs]|];
    try apply quiet_set_diff_files;
    (apply quiet_bind;
     [apply quiet_get_diff_files | intros ?; apply quiet_set_diff_files]).
Qed.

Lemma posts_one_bind {A} (m : M A) (k : A -> M unit) :
  quiet m -> (forall a, posts_one (k a)) -> posts_one (m ≫= k).
Proof.
  intros Hm Hk self r self' H. rewrite bind_unfold in H.
  destruct (m self) as [[a | e] s1] eqn:E1.
  - destruct (Hm _ _ _ E1) as [<- <-]. exact (Hk a _ _ _ H).
  - inversion H; subst. destruct (Hm _ _ _ E1) as [Hd Hl].
    split; [exact Hl |]. right. split; [eauto | exact Hd].
Qed.

Lemma posts_one_create (E : environment) (d : discussion) :
  posts_one (mr_discussions_create E d).
Proof.
  intros self r self' H. unfold mr_discussions_create in H.
  destruct (discussions_create E (discussions self) d);
    inversion H; subst; (split; [reflexivity |]).
  - right. split; [eauto | reflexivity].
  - left. split; [reflexivity | exists d; reflexivity].
Qed.

Lemma posts_one_send (E : environment) (body edit_type : string)
    (relevant_file relevant_line_in_file source_line_no : pyval)
    (target_file : option FilePatchInfo) (target_line_no : pyval) :
  posts_one (send_inline_comment E body edit_type true relevant_file
               relevant_line_in_file source_line_no target_file
               target_line_no).
Proof.
  unfold send_inline_comment. cbn [negb].
  apply posts_one_bind; [apply quiet_get_self | intros self].
  apply posts_one_bind; [apply quiet_lift | intros pos].
  apply posts_one_bind; [apply quiet_logging; reflexivity | intros _].
  apply posts_one_create.
Qed.

Lemma posts_one_publish_suggestion (E : environment)
    (suggestion : gmap string pyval) :
  posts_one (publish_suggestion E suggestion).
Proof.
  unfold publish_suggestion.
  do 4 (apply posts_one_bind; [apply quiet_lift | intros ?]).
  apply posts_one_bind; [apply quiet_ensure_diff_files | intros _].
  apply posts_one_bind; [apply quiet_get_self | intros self].
  do 7 (apply posts_one_bind; [apply quiet_lift | intros ?]).
  apply posts_one_send.
Qed.

(** One turn of the loop: the failure of the suggestion, if any, is
    caught and logged, and the turn ends normally. *)
Lemma suggestion_turn (E : environment) (suggestion : gmap string pyval)
    (self : GitLabProvider) :
  exists self1,
    try_except (publish_suggestion E suggestion)
               (log_suggestion_failure suggestion) self = (Return tt, self1)
    /\ (length (discussions self1) + exceptions_logged (log self1)
        = S (length (discussions self) + exceptions_logged (log self)))%nat.
Proof.
  unfold try_except.
  destruct (publish_suggestion E suggestion self) as [[[] | e] s1] eqn:E1.
  - exists s1. split; [reflexivity |].
    destruct (posts_one_publish_suggestion _ _ _ _ _ E1)
      as [Hl [[_ [d Hd]] | [[e He] _]]]; [| discriminate].
    rewrite Hd, Hl, length_app. simpl. lia.
  - eexists. split; [reflexivity |].
    destruct (posts_one_publish_suggestion _ _ _ _ _ E1)
      as [Hl [[Hr _] | [_ Hd]]]; [discriminate |].
    cbn [add_log discussions log]. rewrite exceptions_logged_app, Hd, Hl.
    simpl. lia.
Qed.

(** Claim C8.  [publish_code_suggestions] never raises: when the work on
    one suggestion raises, the exception is caught and logged in that turn
    of the loop and the loop goes on with the suggestions that follow.
    Every suggestion of the list is attempted: each one leaves either a
    created discussion or a logged failure. *)
Theorem publish_code_suggestions_isolates_failures (E : environment)
    (code_suggestions : list (gmap string pyval)) (self : GitLabProvider) :
  (exists self',
     publish_code_suggestions E code_suggestions self = (Return tt, self')
     /\ (length (discussions self') + exceptions_logged (log self')
         = length (discussions self) + exceptions_logged (log self)
           + length code_suggestions)%nat)
  /\ (forall suggestion rest e self1,
        code_suggestions = suggestion :: rest ->
        publish_suggestion E suggestion self = (Raise e, self1) ->
        publish_code_suggestions E code_suggestions self
        = publish_code_suggestions E rest
            (add_log (LogException_suggestion suggestion e) self1)).
Proof.
  split.
  - revert self. induction code_suggestions as [|s rest IH]; intros self.
    + exists self. split; [reflexivity | simpl; lia].
    + destruct (suggestion_turn E s self) as (self1 & Hturn & Hcount).
      destruct (IH self1) as (self' & Hrest & Hcount').
      exists self'. split.
      * unfold publish_code_suggestions in *. cbn [for_each_M].
        rewrite bind_unfold, Hturn. exact Hrest.
      * rewrite Hcount'. simpl. lia.
  - intros s rest e self1 -> Hraise.
    unfold publish_code_suggestions. cbn [for_each_M].
    rewrite bind_unfold. unfold try_except at 1. rewrite Hraise. reflexivity.
Qed.

(** ** The catalog and the edit type of its entries *)

Lemma get_diff_files_body_built (E : environment) (d : change)
    (acc acc' : list FilePatchInfo) (self self1 : GitLabProvider) :
  get_diff_files_body E d acc self = (Return acc', self1) ->
  exists f, built_from f d
            /\ acc' = (if is_valid_file E (new_path d)
                       then (acc ++ [f])%list else acc).
Proof.
  unfold get_diff_files_body.
  destruct (is_valid_file E (new_path d)).
  - rewrite bind_get_self, bind_lift.
    destruct (get_pr_file_content E (old_path d) (target_branch self))
      as [original | e]; [| discriminate].
    rewrite bind_lift.
    destruct (get_pr_file_content E (new_path d) (source_branch self))
      as [new | e]; [| discriminate].
    destruct (decode_contents E original new) as [[o n] warn].
    intros H. eexists. split; [| destruct warn; inversion H; reflexivity].
    repeat split.
  - intros H. inversion H.
    exists (mkFilePatchInfo (CStr "") (CStr "") (diff d) (new_path d)
              (classify_change d) (old_filename_of d)).
    split; [repeat split | reflexivity].
Qed.

Lemma get_diff_files_loop_built (E : environment) (ds : list change)
    (acc : list FilePatchInfo) (self : GitLabProvider)
    (fs : list FilePatchInfo) (self' : GitLabProvider) :
  get_diff_files_loop E ds acc self = (Return fs, self') ->
  exists new,
    fs = (acc ++ new)%list
    /\ Forall2 built_from new
         (List.filter (fun d => is_valid_file E (new_path d)) ds).
Proof.
  revert acc self. induction ds as [|d ds IH]; intros acc self H.
  - inversion H. exists []. split; [symmetry; apply app_nil_r | constructor].
  - cbn [get_diff_files_loop] in H. rewrite bind_unfold in H.
    destruct (get_diff_files_body E d acc self) as [[acc' | e] s1] eqn:Hb;
      [| discriminate].
    destruct (get_diff_files_body_built _ _ _ _ _ _ Hb) as (f & Hf & ->).
    destruct (IH _ _ H) as (new & -> & Hnew). cbn [List.filter].
    destruct (is_valid_file E (new_path d)).
    + exists (f :: new). split; [rewrite <- app_assoc; reflexivity |].
      constructor; assumption.
    + exists new. split; [reflexivity | assumption].
Qed.

(** Claim C9.  The edit type of a catalog entry follows the precedence
    added > deleted > renamed > modified for every combination of the
    three flags: [new_file] gives ADDED whatever the other flags are,
    otherwise [deleted_file] gives DELETED, otherwise [renamed_file] gives
    RENAMED, otherwise MODIFIED; three flags set give ADDED.  Every entry
    that [get_diff_files] returns carries the edit type so computed from
    its change. *)
Theorem edit_type_precedence (E : environment) (self : GitLabProvider) :
  (forall d : change,
     (new_file d = true -> classify_change d = ADDED)
     /\ (new_file d = false -> deleted_file d = true ->
         classify_change d = DELETED)
     /\ (new_file d = false -> deleted_file d = false ->
         renamed_file d = true -> classify_change d = RENAMED)
     /\ (new_file d = false -> deleted_file d = false ->
         renamed_file d = false -> classify_change d = MODIFIED))
  /\ (forall o n p, classify_change (mkChange o n true true true p) = ADDED)
  /\ (forall fs self',
        get_diff_files E self = (Return fs, self') ->
        exists ds,
          mr_changes E = Return ds
          /\ Forall2 built_from fs
               (List.filter (fun d => is_valid_file E (new_path d)) ds)
          /\ diff_files self' = Some fs).
Proof.
  split; [| split].
  - intros d. unfold classify_change.
    repeat split; intros; repeat match goal with H : _ = _ |- _ => rewrite H end;
      reflexivity.
  - reflexivity.
  - intros fs self' H. unfold get_diff_files in H.
    rewrite bind_lift in H. destruct (mr_changes E) as [ds | e]; [| discriminate].
    exists ds. split; [reflexivity |].
    rewrite bind_unfold in H.
    destruct (get_diff_files_loop E ds [] self) as [[fs1 | e] s1] eqn:Hloop;
      [| discriminate].
    rewrite bind_modify in H. inversion H; subst.
    destruct (get_diff_files_loop_built _ _ _ _ _ _ Hloop) as (new & -> & Hnew).
    split; [exact Hnew | reflexivity].
Qed.

Lemma edit_type_precedence_witness :
  exists ds,
    mr_changes scenario_env = Return ds
    /\ Forall2 built_from [scenario_built]
         (List.filter (fun d => is_valid_file scenario_env (new_path d)) ds)
    /\ diff_files (set_diff_files (Some [scenario_built]) scenario_provider)
       = Some [scenario_built].
Proof.
  exact (proj2 (proj2 (edit_type_precedence scenario_env scenario_provider))
           [scenario_built]
           (set_diff_files (Some [scenario_built]) scenario_provider)
           eq_refl).
Defined.

(** ** The rewritten suggestion marker *)

Lemma startswith_app (old rest : string) :
  Py.startswith old (old ++ rest)%string = true.
Proof.
  induction old as [|c old IH]; [apply startswith_nil |].
  simpl. rewrite Ascii.eqb_refl. exact IH.
Qed.

Lemma replace_from_skip (old new x y : string) :
  Py.replace_from old new (x ++ y)%string (String.length x)
  = Py.replace_from old new y O.
Proof.
  induction x as [|c x IH]; [reflexivity |]. simpl. exact IH.
Qed.

Lemma replace_none (old new s : string) :
  Py.contains old s = false -> Py.replace s old new = s.
Proof.
  unfold Py.replace. induction s as [|c s IH]; [reflexivity |].
  intros H. cbn [Py.contains] in H. apply orb_false_iff in H as [H1 H2].
  cbn [Py.replace_from]. rewrite H1, (IH H2). reflexivity.
Qed.

Lemma append_cons (c : ascii) (s t : string) :
  (String c s ++ t)%string = String c (s ++ t)%string.
Proof. reflexivity. Qed.

Lemma append_nil_l (s : string) : ("" ++ s)%string = s.
Proof. reflexivity. Qed.

Lemma replace_first (old new pre post : string) :
  old <> "" ->
  none_starts_in old pre (old ++ post)%string ->
  Py.replace (pre ++ old ++ post)%string old new
  = (pre ++ new ++ Py.replace post old new)%string.
Proof.
  intros Hne. unfold Py.replace. induction pre as [|c pre IH]; intros Hnone.
  - rewrite !append_nil_l.
    pose proof (startswith_app old post) as Hs.
    destruct old as [|c old]; [congruence |].
    rewrite append_cons in Hs |- *. cbn [Py.replace_from]. rewrite Hs.
    cbn [String.length Nat.sub]. rewrite Nat.sub_0_r, replace_from_skip.
    reflexivity.
  - pose proof (Hnone "" (String c pre) eq_refl) as Hs.
    rewrite !append_cons in Hs |- *. cbn [Py.replace_from].
    rewrite Hs by discriminate.
    rewrite IH; [reflexivity |].
    intros a b -> Hb. apply (Hnone (String c a) b eq_refl Hb).
Qed.

Lemma bind_return_inv {A B} (m : M A) (k : A -> M B)
    (self : GitLabProvider) (b : B) (self' : GitLabProvider) :
  (m ≫= k) self = (Return b, self') ->
  exists a self1, m self = (Return a, self1) /\ k a self1 = (Return b, self').
Proof.
  rewrite bind_unfold. destruct (m self) as [[a | e] s1]; [eauto | discriminate].
Qed.

Lemma lift_return_inv {A} (r : result A) (self : GitLabProvider) (a : A)
    (self1 : GitLabProvider) :
  lift r self = (Return a, self1) -> r = Return a /\ self1 = self.
Proof. unfold lift. intros H. inversion H. split; reflexivity. Qed.

(** A found position that was sent is the last discussion. *)
Lemma send_found_inv (E : environment) (body edit_type : string)
    (relevant_file relevant_line_in_file source_line_no : pyval)
    (target_file : option FilePatchInfo) (target_line_no : pyval)
    (self self' : GitLabProvider) :
  send_inline_comment E body edit_type true relevant_file
    relevant_line_in_file source_line_no target_file target_line_no self
  = (Return tt, self') ->
  exists pos,
    build_pos_obj (last_diff self) edit_type source_line_no target_file
      target_line_no = Return pos
    /\ discussions self' = (discussions self ++ [mkDiscussion body pos])%list.
Proof.
  unfold send_inline_comment. cbn [negb]. rewrite bind_get_self, bind_lift.
  destruct (build_pos_obj _ _ _ _ _) as [pos | e]; [| discriminate].
  unfold logging. rewrite bind_modify. unfold mr_discussions_create.
  cbn [discussions add_log].
  destruct (discussions_create E _ _); [discriminate |].
  intros H. inversion H. exists pos. split; reflexivity.
Qed.

(** Claim C10.  For a suggestion with bounds [relevant_lines_start] and
    [relevant_lines_end], the body that [publish_code_suggestions]
    publishes is the suggestion's body in which each occurrence of the
    marker '```suggestion' reads '```suggestion:-0+N', N being
    [relevant_lines_end - relevant_lines_start], with no adjustment by
    one.  The occurrences are taken from left to right: a body without
    the marker is unchanged, and the first occurrence is rewritten and the
    rest of the body after it is rewritten in the same way. *)
Theorem suggestion_marker_rewritten (E : environment)
    (suggestion : gmap string pyval) (self : GitLabProvider) :
  (forall self',
     publish_suggestion E suggestion self = (Return tt, self') ->
     exists b s e d,
       suggestion !! "body" = Some (PStr b)
       /\ suggestion !! "relevant_lines_start" = Some (PInt s)
       /\ suggestion !! "relevant_lines_end" = Some (PInt e)
       /\ discussions self' = (discussions self ++ [d])%list
       /\ d_body d
          = Py.replace b "```suggestion"
              ("```suggestion:-0+" ++ Py.str_of_int (e - s))%string)
  /\ (forall b new : string,
        Py.contains suggestion_marker b = false ->
        Py.replace b suggestion_marker new = b)
  /\ (forall pre post new : string,
        none_starts_in suggestion_marker pre (suggestion_marker ++ post)%string ->
        Py.replace (pre ++ suggestion_marker ++ post)%string
          suggestion_marker new
        = (pre ++ new ++ Py.replace post suggestion_marker new)%string).
Proof.
  split; [| split].
  - intros self' H. unfold publish_suggestion in H.
    apply bind_return_inv in H as (body & s1 & H1 & H).
    apply lift_return_inv in H1 as [Hbody ->].
    apply bind_return_inv in H as (rf & s1 & H1 & H).
    apply lift_return_inv in H1 as [_ ->].
    apply bind_return_inv in H as (start & s1 & H1 & H).
    apply lift_return_inv in H1 as [Hstart ->].
    apply bind_return_inv in H as (stop & s1 & H1 & H).
    apply lift_return_inv in H1 as [Hstop ->].
    apply bind_return_inv in H as ([] & s1 & Hens & H).
    destruct (quiet_ensure_diff_files E _ _ _ Hens) as [Hdisc _].
    rewrite bind_get_self in H.
    apply bind_return_inv in H as (files & s2 & H1 & H).
    apply lift_return_inv in H1 as [_ ->].
    apply bind_return_inv in H as (tf & s2 & H1 & H).
    apply lift_return_inv in H1 as [_ ->].
    apply bind_return_inv in H as (range & s2 & H1 & H).
    apply lift_return_inv in H1 as [Hrange ->].
    apply bind_return_inv in H as (body' & s2 & H1 & H).
    apply lift_return_inv in H1 as [Hrewrite ->].
    apply bind_return_inv in H as (lines & s2 & H1 & H).
    apply lift_return_inv in H1 as [_ ->].
    apply bind_return_inv in H as (rl & s2 & H1 & H).
    apply lift_return_inv in H1 as [_ ->].
    apply bind_return_inv in H as (tln & s2 & H1 & H).
    apply lift_return_inv in H1 as [_ ->].
    apply send_found_inv in H as (pos & _ & Hsent).
    unfold dict_getitem in Hbody, Hstart, Hstop.
    destruct (suggestion !! "body") as [vb |]; [| discriminate].
    destruct (suggestion !! "relevant_lines_start") as [vs |]; [| discriminate].
    destruct (suggestion !! "relevant_lines_end") as [ve |]; [| discriminate].
    inversion Hbody; inversion Hstart; inversion Hstop; subst.
    destruct stop as [| e | |]; try discriminate;
      destruct start as [| s | |]; try discriminate.
    cbn [py_sub] in Hrange. inversion Hrange; subst.
    destruct body as [| | b |]; try discriminate.
    cbn [rewrite_body] in Hrewrite. inversion Hrewrite; subst.
    exists b, s, e, (mkDiscussion
      (Py.replace b suggestion_marker
         (suggestion_marker ++ ":-0+" ++ Py.str_of_int (e - s))%string) pos).
    repeat split. rewrite Hsent, Hdisc. reflexivity.
  - intros b new H. apply replace_none, H.
  - intros pre post new H. apply replace_first; [discriminate | exact H].
Qed.

Lemma suggestion_marker_rewritten_witness :
  exists b s e d,
    scenario_suggestion !! "body" = Some (PStr b)
    /\ scenario_suggestion !! "relevant_lines_start" = Some (PInt s)
    /\ scenario_suggestion !! "relevant_lines_end" = Some (PInt e)
    /\ discussions
         (snd (publish_suggestion scenario_env scenario_suggestion
                 scenario_provider))
       = (discussions scenario_provider ++ [d])%list
    /\ d_body d
       = Py.replace b "```suggestion"
           ("```suggestion:-0+" ++ Py.str_of_int (e - s))%string.
Proof.
  refine (proj1 (suggestion_marker_rewritten scenario_env scenario_suggestion
                   scenario_provider) _ _).
  vm_compute. reflexivity.
Defined.

(** * Further properties *)

(** ** Decimal digits *)

Lemma isdigit_value (c : ascii) :
  Py.isdigit c = true -> 0 <= Z.of_N (Py.code c) - 48 <= 9.
Proof.
  unfold Py.isdigit. intros H. apply andb_true_iff in H as [H1 H2].
  apply N.leb_le in H1, H2. lia.
Qed.

Lemma int_digits_nonneg (ds : string) (acc : Z) :
  all_digits ds = true -> 0 <= acc -> 0 <= Py.int_digits acc ds.
Proof.
  revert acc. induction ds as [|c ds IH]; intros acc H Hacc; [exact Hacc |].
  cbn [all_digits] in H. apply andb_true_iff in H as [Hc Hds].
  cbn [Py.int_digits]. apply IH; [exact Hds |].
  pose proof (isdigit_value c Hc). lia.
Qed.

Lemma int_nonneg (ds : string) : all_digits ds = true -> 0 <= Py.int ds.
Proof. intros H. apply int_digits_nonneg; [exact H | lia]. Qed.

Lemma all_digits_of_uint (d : Decimal.uint) :
  all_digits (NilEmpty.string_of_uint d) = true.
Proof. induction d; simpl; auto. Qed.

Lemma int_digits_of_uint_acc (d : Decimal.uint) (acc : positive) :
  Py.int_digits (Z.pos acc) (NilEmpty.string_of_uint d)
  = Z.pos (Pos.of_uint_acc d acc).
Proof.
  revert acc. induction d; intros acc; [reflexivity | ..];
    cbn [NilEmpty.string_of_uint Py.int_digits Pos.of_uint_acc];
    rewrite <- IHd; f_equal; vm_compute Py.code; lia.
Qed.

Lemma int_of_uint (d : Decimal.uint) :
  Py.int (NilEmpty.string_of_uint d) = Z.of_N (Pos.of_uint d).
Proof.
  unfold Py.int. induction d; [reflexivity | exact IHd | ..];
    cbn [NilEmpty.string_of_uint Py.int_digits Pos.of_uint Z.of_N];
    rewrite <- int_digits_of_uint_acc; reflexivity.
Qed.

Lemma str_of_int_pos (p : positive) :
  Py.str_of_int (Z.pos p) = NilEmpty.string_of_uint (Pos.to_uint p).
Proof.
  unfold Py.str_of_int. cbn [Z.to_int NilZero.string_of_int].
  unfold NilZero.string_of_uint.
  pose proof (Unsigned.to_uint_nonnil p).
  destruct (Pos.to_uint p); [congruence | reflexivity ..].
Qed.

(** [int(str(n)) == n] for a natural number, and [str(n)] is a non-empty
    string of digits. *)
Lemma int_str_of_int (n : Z) :
  0 <= n ->
  Py.int (Py.str_of_int n) = n
  /\ all_digits (Py.str_of_int n) = true
  /\ Py.str_of_int n <> "".
Proof.
  intros Hn. destruct n as [|p|p]; [repeat split; discriminate | | lia].
  rewrite str_of_int_pos. split; [| split].
  - rewrite int_of_uint, Unsigned.of_to. reflexivity.
  - apply all_digits_of_uint.
  - pose proof (Unsigned.to_uint_nonnil p).
    destruct (Pos.to_uint p); [congruence | discriminate ..].
Qed.

(** ** The hunk header grammar *)

Lemma strip_prefix_sound (p s r : string) :
  Py.strip_prefix p s = Some r -> s = (p ++ r)%string.
Proof.
  revert s. induction p as [|a p IH]; intros s H.
  - cbn [Py.strip_prefix] in H. inversion H. reflexivity.
  - destruct s as [|b s]; [discriminate |]. cbn [Py.strip_prefix] in H.
    destruct (Ascii.eqb_spec a b) as [-> |]; [| discriminate].
    rewrite append_cons. f_equal. apply IH, H.
Qed.

Lemma strip_prefix_app (p r : string) :
  Py.strip_prefix p (p ++ r)%string = Some r.
Proof.
  induction p as [|a p IH]; [destruct r; reflexivity |].
  rewrite append_cons. cbn [Py.strip_prefix]. rewrite Ascii.eqb_refl.
  exact IH.
Qed.

Lemma span_digits_sound (s ds rest : string) :
  Py.span_digits s = (ds, rest) ->
  s = (ds ++ rest)%string
  /\ all_digits ds = true /\ no_digit_ahead rest = true.
Proof.
  revert ds rest. induction s as [|c s IH]; intros ds rest H.
  - inversion H. repeat split.
  - cbn [Py.span_digits] in H. destruct (Py.isdigit c) eqn:Hc.
    + destruct (Py.span_digits s) as [ds' rest'].
      destruct (IH ds' rest' eq_refl) as (-> & Hd & Hr).
      inversion H; subst. repeat split; [| exact Hr].
      cbn [all_digits]. rewrite Hc. exact Hd.
    + inversion H; subst. repeat split. cbn [no_digit_ahead].
      rewrite Hc. reflexivity.
Qed.

Lemma span_digits_app (ds rest : string) :
  all_digits ds = true -> no_digit_ahead rest = true ->
  Py.span_digits (ds ++ rest)%string = (ds, rest).
Proof.
  intros Hd Hr. induction ds as [|c ds IH].
  - rewrite append_nil_l. destruct rest as [|c r]; [reflexivity |].
    cbn [no_digit_ahead] in Hr. cbn [Py.span_digits].
    apply negb_true_iff in Hr. rewrite Hr. reflexivity.
  - cbn [all_digits] in Hd. apply andb_true_iff in Hd as [Hc Hd].
    rewrite append_cons. cbn [Py.span_digits]. rewrite Hc, (IH Hd).
    reflexivity.
Qed.

Lemma re_digits_sound (s ds rest : string) :
  re_digits s = Some (ds, rest) ->
  s = (ds ++ rest)%string /\ ds <> "" /\ all_digits ds = true
  /\ no_digit_ahead rest = true.
Proof.
  unfold re_digits. destruct (Py.span_digits s) as [ds' rest'] eqn:Hs.
  destruct (span_digits_sound _ _ _ Hs) as (-> & Hd & Hr).
  destruct ds' as [|c ds']; [discriminate |]. intros H. inversion H; subst.
  repeat split; [discriminate | exact Hd | exact Hr].
Qed.

Lemma re_digits_app (ds rest : string) :
  ds <> "" -> all_digits ds = true -> no_digit_ahead rest = true ->
  re_digits (ds ++ rest)%string = Some (ds, rest).
Proof.
  intros Hne Hd Hr. unfold re_digits. rewrite (span_digits_app _ _ Hd Hr).
  destruct ds; [congruence | reflexivity].
Qed.

Lemma re_opt_size_sound (s : string) (o : option string) (rest : string) :
  re_opt_size s = (o, rest) ->
  s = (size_text o ++ rest)%string
  /\ (forall z, o = Some z -> z <> "" /\ all_digits z = true).
Proof.
  unfold re_opt_size.
  destruct (Py.strip_prefix "," s) as [s' |] eqn:Hp.
  - destruct (re_digits s') as [[ds r] |] eqn:Hd; intros H; inversion H; subst.
    + apply strip_prefix_sound in Hp as ->.
      destruct (re_digits_sound _ _ _ Hd) as (-> & Hne & Hall & _).
      split; [reflexivity |]. intros z Hz. inversion Hz; subst. auto.
    + split; [reflexivity | discriminate].
  - intros H. inversion H; subst. split; [reflexivity | discriminate].
Qed.

Lemma space_ahead (rest : string) :
  Py.startswith " " rest = true ->
  no_digit_ahead rest = true /\ Py.strip_prefix "," rest = None.
Proof.
  destruct rest as [|c r]; [discriminate |]. rewrite startswith_char.
  intros H. apply Ascii.eqb_eq in H as ->. split; reflexivity.
Qed.

Lemma re_opt_size_app (o : option string) (rest : string) :
  (forall z, o = Some z -> z <> "" /\ all_digits z = true) ->
  Py.startswith " " rest = true ->
  re_opt_size (size_text o ++ rest)%string = (o, rest).
Proof.
  intros Ho Hrest. destruct (space_ahead _ Hrest) as [Hnd Hnc].
  unfold re_opt_size. destruct o as [z |]; cbn [size_text].
  - destruct (Ho z eq_refl) as [Hne Hall].
    change (("," ++ z) ++ rest)%string with ("," ++ (z ++ rest))%string.
    rewrite strip_prefix_app, (re_digits_app _ _ Hne Hall Hnd).
    reflexivity.
  - rewrite append_nil_l, Hnc. reflexivity.
Qed.

Lemma re_dot_star_id (h : string) : no_linefeed h = true -> re_dot_star h = h.
Proof.
  induction h as [|c h IH]; [reflexivity |]. cbn [no_linefeed re_dot_star].
  intros H. apply andb_true_iff in H as [Hc Hh].
  apply negb_true_iff in Hc. rewrite Hc, (IH Hh). reflexivity.
Qed.

(** The decomposition of a matched line into its groups. *)
Lemma header_match_parts (line : string) (g : hunk_groups) :
  RE_HUNK_HEADER_match line = Some g ->
  (exists rest,
     line = ("@@ -" ++ start_old g ++ size_text (size_old g)
             ++ " +" ++ start_new g ++ size_text (size_new g)
             ++ " @@" ++ rest)%string)
  /\ (start_old g <> "" /\ all_digits (start_old g) = true)
  /\ (start_new g <> "" /\ all_digits (start_new g) = true)
  /\ (forall z, size_old g = Some z -> z <> "" /\ all_digits z = true)
  /\ (forall z, size_new g = Some z -> z <> "" /\ all_digits z = true).
Proof.
  unfold RE_HUNK_HEADER_match.
  destruct (Py.strip_prefix "@@ -" line) as [s1 |] eqn:H1; [| discriminate].
  destruct (re_digits s1) as [[so s2] |] eqn:H2; [| discriminate].
  destruct (re_opt_size s2) as [zo s3] eqn:H3.
  destruct (Py.strip_prefix " +" s3) as [s4 |] eqn:H4; [| discriminate].
  destruct (re_digits s4) as [[sn s5] |] eqn:H5; [| discriminate].
  destruct (re_opt_size s5) as [zn s6] eqn:H6.
  destruct (Py.strip_prefix " @@" s6) as [s7 |] eqn:H7; [| discriminate].
  intros H. inversion H; subst; clear H. cbn [start_old start_new size_old
    size_new].
  apply strip_prefix_sound in H1 as ->, H4 as ->, H7 as ->.
  destruct (re_digits_sound _ _ _ H2) as (-> & Hso & Hdo & _).
  destruct (re_digits_sound _ _ _ H5) as (-> & Hsn & Hdn & _).
  destruct (re_opt_size_sound _ _ _ H3) as (-> & Hzo).
  destruct (re_opt_size_sound _ _ _ H6) as (-> & Hzn).
  split; [exists s7; reflexivity |].
  split; [split; assumption |]. split; [split; assumption |].
  split; [exact Hzo | exact Hzn].
Qed.

(** X1.  Whenever the header pattern matches a line, the line begins with
    the text that the grammar prescribes for the captured groups, and the
    two start groups are non-empty strings of decimal digits, so that
    their conversion by [int] cannot fail and gives a natural number. *)
Theorem hunk_header_match_sound (line : string) (g : hunk_groups) :
  RE_HUNK_HEADER_match line = Some g ->
  (exists rest,
     line = ("@@ -" ++ start_old g ++ size_text (size_old g)
             ++ " +" ++ start_new g ++ size_text (size_new g)
             ++ " @@" ++ rest)%string)
  /\ start_old g <> "" /\ all_digits (start_old g) = true
  /\ start_new g <> "" /\ all_digits (start_new g) = true
  /\ (forall z, size_old g = Some z \/ size_new g = Some z ->
                z <> "" /\ all_digits z = true)
  /\ 0 <= Py.int (start_old g) /\ 0 <= Py.int (start_new g)
  /\ Py.startswith "@@" line = true.
Proof.
  intros Hm.
  destruct (header_match_parts _ _ Hm)
    as ([rest Hline] & [Hso Hdo] & [Hsn Hdn] & Hzo & Hzn).
  split; [exists rest; exact Hline |].
  do 4 (split; [assumption |]).
  split; [intros z [Hz | Hz]; [apply (Hzo z Hz) | apply (Hzn z Hz)] |].
  split; [apply int_nonneg, Hdo |]. split; [apply int_nonneg, Hdn |].
  rewrite Hline. reflexivity.
Qed.

Lemma hunk_header_match_sound_witness :
  0 <= Py.int (start_old (mkGroups "1" (Some "3") "1" (Some "4") "")).
Proof.
  exact (proj1 (proj2 (proj2 (proj2 (proj2 (proj2 (proj2
           (hunk_header_match_sound "@@ -1,3 +1,4 @@"
              (mkGroups "1" (Some "3") "1" (Some "4") "") eq_refl)))))))).
Defined.

Lemma size_text_digits (b : option Z) :
  opt_nonneg b ->
  forall z, Py.str_of_int <$> b = Some z -> z <> "" /\ all_digits z = true.
Proof.
  intros Hb z Hz. destruct b as [n |]; [| discriminate].
  inversion Hz; subst. destruct (int_str_of_int n Hb) as (_ & Hd & Hne).
  split; assumption.
Qed.

(** A header text made of digit strings is matched, group by group. *)
Lemma header_text_match (sa : string) (ob : option string) (sc : string)
    (od : option string) (h : string) :
  sa <> "" -> all_digits sa = true -> sc <> "" -> all_digits sc = true ->
  (forall z, ob = Some z -> z <> "" /\ all_digits z = true) ->
  (forall z, od = Some z -> z <> "" /\ all_digits z = true) ->
  no_linefeed h = true ->
  RE_HUNK_HEADER_match
    ("@@ -" ++ sa ++ size_text ob ++ " +" ++ sc ++ size_text od
     ++ " @@ " ++ h)%string
  = Some (mkGroups sa ob sc od h).
Proof.
  intros Hna Hda Hnc Hdc Hb Hd Hh. unfold RE_HUNK_HEADER_match.
  rewrite strip_prefix_app.
  rewrite (re_digits_app _ _ Hna Hda).
  2:{ destruct ob; reflexivity. }
  rewrite re_opt_size_app; [| exact Hb | reflexivity].
  rewrite strip_prefix_app.
  rewrite (re_digits_app _ _ Hnc Hdc).
  2:{ destruct od; reflexivity. }
  rewrite re_opt_size_app; [| exact Hd | reflexivity].
  transitivity (Some (mkGroups sa ob sc od (re_dot_star h)));
    [reflexivity | rewrite (re_dot_star_id _ Hh); reflexivity].
Qed.

(** X2.  Round trip through the header grammar: the header line written
    for natural starts [a] and [c], with or without sizes and with a
    section heading, is matched, and the integers read from groups 1 and 3
    are [a] and [c] again; the sizes and the heading come back as
    written. *)
Theorem hunk_header_round_trip (a : Z) (b : option Z) (c : Z) (d : option Z)
    (h : string) :
  0 <= a -> 0 <= c -> opt_nonneg b -> opt_nonneg d -> no_linefeed h = true ->
  exists g,
    RE_HUNK_HEADER_match (header_line a b c d h) = Some g
    /\ Py.int (start_old g) = a /\ Py.int (start_new g) = c
    /\ size_old g = (Py.str_of_int <$> b)
    /\ size_new g = (Py.str_of_int <$> d)
    /\ heading g = h.
Proof.
  intros Ha Hc Hb Hd Hh.
  destruct (int_str_of_int a Ha) as (Hia & Hda & Hna).
  destruct (int_str_of_int c Hc) as (Hic & Hdc & Hnc).
  unfold header_line.
  rewrite (header_text_match _ _ _ _ _ Hna Hda Hnc Hdc
             (size_text_digits b Hb) (size_text_digits d Hd) Hh).
  eexists. split; [reflexivity |].
  cbn [start_old start_new size_old size_new heading].
  repeat split; assumption.
Qed.

Lemma hunk_header_round_trip_witness :
  exists g,
    RE_HUNK_HEADER_match (header_line 12 (Some 3) 15 None "def f():") = Some g
    /\ Py.int (start_old g) = 12 /\ Py.int (start_new g) = 15
    /\ size_old g = (Py.str_of_int <$> Some 3)
    /\ size_new g = (Py.str_of_int <$> None)
    /\ heading g = "def f():".
Proof.
  refine (hunk_header_round_trip 12 (Some 3) 15 None "def f():" _ _ _ _ _);
    [discriminate | discriminate | discriminate | exact I | reflexivity].
Defined.

(** ** When [find_in_file] raises *)

Lemma contains_in_empty (x : string) : Py.contains x "" = true -> x = "".
Proof. destruct x; [reflexivity | discriminate]. Qed.


Lemma candidate_empty_line (ref : string) :
  candidate ref "" = true ->
  ref = "" \/ (Py.startswith "+" ref = true /\ stripped ref = "").
Proof.
  unfold candidate, line_matches. cbn [Py.startswith negb andb].
  intros H. apply orb_true_iff in H as [H | H].
  - left. apply contains_in_empty, H.
  - right. apply andb_true_iff in H as [Hp Hs].
    split; [exact Hp | apply contains_in_empty, Hs].
Qed.

Lemma body_raises (ref line : string) (st : locals) (e : exn) :
  find_in_file_body ref line st = Raise e ->
  e = IndexError /\ line = ""
  /\ (ref = "" \/ (Py.startswith "+" ref = true /\ stripped ref = "")).
Proof.
  destruct (candidate ref line) eqn:Hc.
  - rewrite (body_stop _ _ _ Hc). unfold matched.
    destruct line as [|c r].
    + intros H. inversion H. repeat split. apply candidate_empty_line, Hc.
    + destruct (get_edit_type_nonempty c r) as [et ->]. discriminate.
  - rewrite (body_pass _ _ _ Hc). discriminate.
Qed.

Lemma for_each_raises (ref : string) (lines : list string) (st : locals)
    (e : exn) :
  for_each (find_in_file_body ref) lines st = Raise e ->
  exists line st', In line lines /\ find_in_file_body ref line st' = Raise e.
Proof.
  revert st. induction lines as [|x xs IH]; intros st H; [discriminate |].
  cbn [for_each] in H.
  destruct (find_in_file_body ref x st) as [[[] st1] | e'] eqn:Hb.
  - destruct (IH _ H) as (l & st' & Hin & Hl).
    exists l, st'. split; [right; exact Hin | exact Hl].
  - discriminate.
  - inversion H; subst. exists x, st. split; [left; reflexivity | exact Hb].
Qed.

(** X3.  [find_in_file] can only fail with an [IndexError], and only when
    the patch has an empty line and the reference is empty or is a plus
    sign followed by nothing but white space (the empty line is then taken
    as the match and its first character is read).  On a patch without an
    empty line it returns for every reference. *)
Theorem find_in_file_raises_only_on_empty_line (file : FilePatchInfo)
    (ref : string) :
  (forall e, find_in_file file ref = Raise e ->
     e = IndexError /\ In "" (Py.splitlines (patch file))
     /\ (ref = "" \/ (Py.startswith "+" ref = true /\ stripped ref = "")))
  /\ (~ In "" (Py.splitlines (patch file)) ->
      exists r, find_in_file file ref = Return r).
Proof.
  assert (Hr : forall e, find_in_file file ref = Raise e ->
     e = IndexError /\ In "" (Py.splitlines (patch file))
     /\ (ref = "" \/ (Py.startswith "+" ref = true /\ stripped ref = ""))).
  { intros e H. unfold find_in_file, find_in_lines in H.
    destruct (for_each _ _ _) as [st | e'] eqn:Hloop; [discriminate |].
    inversion H; subst.
    destruct (for_each_raises _ _ _ _ Hloop) as (l & st' & Hin & Hl).
    destruct (body_raises _ _ _ _ Hl) as (-> & -> & Href). auto. }
  split; [exact Hr |].
  intros Hno. destruct (find_in_file file ref) as [r | e] eqn:H; [eauto |].
  destruct (Hr e eq_refl) as (_ & Hin & _). contradiction.
Qed.

Lemma find_in_file_raises_only_on_empty_line_witness :
  IndexError = IndexError /\ In "" (Py.splitlines (patch blank_file))
  /\ ("" = "" \/ (Py.startswith "+" "" = true /\ stripped "" = "")).
Proof.
  refine (proj1 (find_in_file_raises_only_on_empty_line blank_file "")
            IndexError _).
  vm_compute. reflexivity.
Defined.

(** ** The counters that [find_in_file] returns *)

Lemma get_edit_type_sigil (line et : string) :
  get_edit_type line = Return et ->
  (et = "deletion" -> Py.startswith "-" line = true)
  /\ (et = "addition" ->
      Py.startswith "-" line = false /\ Py.startswith "+" line = true).
Proof.
  destruct line as [|c r]; [discriminate |]. unfold get_edit_type.
  cbn [Py.getitem0]. rewrite rbind_return, !startswith_char.
  destruct (Ascii.eqb c "-"); [| rewrite rbind_return; destruct (Ascii.eqb c "+")];
    intros H; inversion H; subst; split; intros; try discriminate; auto.
Qed.

Lemma pass_line_nonneg (line : string) (st : locals) :
  0 <= l_source_line_no st -> 0 <= l_target_line_no st ->
  0 <= l_source_line_no (pass_line line st)
  /\ 0 <= l_target_line_no (pass_line line st).
Proof.
  intros Hs Ht. unfold pass_line, count_line.
  destruct (Py.startswith "@@" line).
  - destruct (RE_HUNK_HEADER_match line) as [g |] eqn:Hg; [| auto].
    destruct (header_match_parts _ _ Hg) as (_ & [_ Ho] & [_ Hn] & _).
    cbn [l_source_line_no l_target_line_no].
    split; apply int_nonneg; assumption.
  - destruct (Py.startswith "-" line); [cbn; lia |].
    destruct (Py.startswith "+" line); [cbn; lia |].
    destruct (Py.startswith " " line); cbn; lia.
Qed.

Lemma count_line_steps (line : string) (st : locals) :
  l_source_line_no (count_line line st)
  = l_source_line_no st + source_step line
  /\ l_target_line_no (count_line line st)
     = l_target_line_no st + target_step line.
Proof.
  unfold count_line, source_step, target_step.
  destruct line as [|c r]; [cbn; lia |]. rewrite !startswith_char.
  destruct (Ascii.eqb_spec c "-") as [-> |]; [cbn; lia |].
  destruct (Ascii.eqb_spec c "+") as [-> |]; [cbn; lia |].
  destruct (Ascii.eqb c " "); cbn; lia.
Qed.

(** What holds of the locals when the loop is left. *)
Lemma for_each_counters (ref : string) (lines : list string) (st st' : locals) :
  0 <= l_source_line_no st -> 0 <= l_target_line_no st ->
  l_found st = false -> l_edit_type st = "context" ->
  for_each (find_in_file_body ref) lines st = Return st' ->
  0 <= l_source_line_no st' /\ 0 <= l_target_line_no st'
  /\ (l_found st' = false -> l_edit_type st' = "context")
  /\ (l_found st' = true ->
      (l_edit_type st' = "deletion" -> 1 <= l_source_line_no st')
      /\ (l_edit_type st' = "addition" -> 1 <= l_target_line_no st')).
Proof.
  revert st. induction lines as [|x xs IH]; intros st Hs Ht Hf He H.
  - inversion H; subst. repeat split; auto; congruence.
  - cbn [for_each] in H. destruct (candidate ref x) eqn:Hc.
    + rewrite (body_stop _ _ _ Hc) in H. unfold matched in H.
      destruct (get_edit_type x) as [et | e] eqn:Het; [| discriminate].
      rewrite rbind_return in H. inversion H; subst; clear H.
      cbn [l_source_line_no l_target_line_no l_found l_edit_type].
      destruct (count_line_steps x st) as [-> ->].
      destruct (get_edit_type_sigil _ _ Het) as [Hdel Hadd].
      assert (0 <= source_step x /\ 0 <= target_step x) as [? ?].
      { unfold source_step, target_step.
        destruct (_ || _), (_ || _); lia. }
      split; [lia |]. split; [lia |]. split; [discriminate |].
      intros _. split.
      * intros Hd. unfold source_step. rewrite (Hdel Hd). cbn. lia.
      * intros Ha. unfold target_step. rewrite (proj2 (Hadd Ha)). cbn. lia.
    + rewrite (body_pass _ _ _ Hc) in H.
      destruct (pass_line_nonneg x st Hs Ht) as [Hs' Ht'].
      destruct (pass_line_keeps x st) as [He' Hf'].
      apply (IH _ Hs' Ht'); [congruence | congruence | exact H].
Qed.

(** X4.  What [find_in_file] returns: the file it was given; counters that
    are never negative; for a found deletion a source line number of at
    least 1 and for a found addition a target line number of at least 1
    (so that the line of the position built from them is not negative);
    and the edit type 'context' whenever nothing is found. *)
Theorem find_in_file_counters (file : FilePatchInfo) (ref et : string)
    (fnd : bool) (src : Z) (tf : FilePatchInfo) (tgt : Z) :
  find_in_file file ref = Return (et, fnd, src, tf, tgt) ->
  tf = file /\ 0 <= src /\ 0 <= tgt
  /\ (fnd = false -> et = "context")
  /\ (fnd = true -> et = "deletion" -> 1 <= src)
  /\ (fnd = true -> et = "addition" -> 1 <= tgt).
Proof.
  unfold find_in_file, find_in_lines.
  destruct (for_each _ _ _) as [st | e] eqn:Hloop; [| discriminate].
  rewrite rbind_return. intros H. inversion H; subst; clear H.
  assert (H0 : 0 <= 0) by lia.
  destruct (for_each_counters _ _ find_in_file_init _ H0 H0
              eq_refl eq_refl Hloop) as (Hs & Ht & Hnf & Hf).
  repeat split; auto; intros Hfound; apply (Hf Hfound).
Qed.

Lemma find_in_file_counters_witness :
  scenario_file = scenario_file /\ 0 <= 3 /\ 0 <= 2
  /\ (true = false -> "deletion" = "context")
  /\ (true = true -> "deletion" = "deletion" -> 1 <= 3)
  /\ (true = true -> "deletion" = "addition" -> 1 <= 2).
Proof.
  refine (find_in_file_counters scenario_file "old line" "deletion" true 3
            scenario_file 2 _).
  vm_compute. reflexivity.
Defined.

(** ** Which line is found *)

Lemma first_candidate_split (ref : string) (lines : list string) :
  Forall (fun x => candidate ref x = false) lines
  \/ exists pre l post,
       lines = (pre ++ l :: post)%list
       /\ Forall (fun x => candidate ref x = false) pre
       /\ candidate ref l = true.
Proof.
  induction lines as [|x xs IH]; [left; constructor |].
  destruct (candidate ref x) eqn:Hx.
  - right. exists [], x, xs. repeat split; [constructor | exact Hx].
  - destruct IH as [IH | (pre & l & post & -> & Hpre & Hl)].
    + left. constructor; assumption.
    + right. exists (x :: pre), l, post.
      repeat split; [constructor; assumption | exact Hl].
Qed.

(** X5.  When [find_in_file] returns, it reports a match exactly when some
    line of the patch that does not begin with [@@] contains the reference
    or, for a reference with a leading plus sign, the stripped reference.
    A reference that occurs in hunk headers only, for instance in their
    section text, is not found. *)
Theorem find_in_file_found_iff (file : FilePatchInfo) (ref et : string)
    (fnd : bool) (src : Z) (tf : FilePatchInfo) (tgt : Z) :
  find_in_file file ref = Return (et, fnd, src, tf, tgt) ->
  (fnd = true <->
   exists l, In l (Py.splitlines (patch file))
             /\ Py.startswith "@@" l = false /\ line_matches ref l = true).
Proof.
  unfold find_in_file.
  destruct (first_candidate_split ref (Py.splitlines (patch file)))
    as [Hnone | (pre & l & post & Hsplit & Hpre & Hl)].
  - rewrite (find_in_lines_none _ _ Hnone), rbind_return.
    destruct (pass_lines_keeps (Py.splitlines (patch file)) find_in_file_init)
      as [_ Hf].
    intros H. inversion H; subst; clear H. rewrite Hf. cbn [l_found].
    split; [discriminate |]. intros (l & Hin & Hh & Hm).
    rewrite Forall_forall in Hnone.
    specialize (Hnone l (proj2 (list_elem_of_In _ _) Hin)).
    unfold candidate in Hnone. rewrite Hh, Hm in Hnone. discriminate.
  - rewrite Hsplit, (find_in_lines_stop _ _ _ _ Hpre Hl).
    destruct (get_edit_type l) as [et' | e]; [| discriminate].
    rewrite !rbind_return. intros H. inversion H; subst; clear H.
    split; [intros _ | reflexivity].
    exists l. split; [apply in_elt |].
    unfold candidate in Hl. apply andb_true_iff in Hl as [Hh Hm].
    apply negb_true_iff in Hh. auto.
Qed.

Lemma find_in_file_found_iff_witness :
  true = true <->
  exists l, In l (Py.splitlines (patch scenario_file))
            /\ Py.startswith "@@" l = false
            /\ line_matches "new line A" l = true.
Proof.
  refine (find_in_file_found_iff scenario_file "new line A" "addition" true 3
            scenario_file 3 _).
  vm_compute. reflexivity.
Defined.





(** X7.  Empty inputs.  On an empty patch nothing is found, with both
    counters 0, whatever the reference.  The empty reference is contained
    in every line, so it is found at the first line that does not begin
    with [@@], with that line's edit type. *)
Theorem find_in_file_empty_inputs (file : FilePatchInfo) (ref : string) :
  (patch file = "" ->
   find_in_file file ref = Return ("context", false, 0, file, 0))
  /\ (forall pre l post,
        Py.splitlines (patch file) = (pre ++ l :: post)%list ->
        Forall (fun x => Py.startswith "@@" x = true) pre ->
        Py.startswith "@@" l = false -> l <> "" ->
        exists et,
          get_edit_type l = Return et
          /\ find_in_file file ""
             = Return (et, true,
                       l_source_line_no
                         (pass_lines (pre ++ [l]) find_in_file_init),
                       file,
                       l_target_line_no
                         (pass_lines (pre ++ [l]) find_in_file_init))).
Proof.
  split.
  - intros Hp. unfold find_in_file. rewrite Hp. reflexivity.
  - intros pre l post Hsplit Hpre Hh Hne.
    destruct l as [|ch r] eqn:El; [congruence |]. rewrite <- El in *.
    destruct (get_edit_type_nonempty ch r) as [et Het]. rewrite <- El in Het.
    exists et. split; [exact Het |].
    unfold find_in_file. rewrite Hsplit, find_in_lines_stop.
    + rewrite Het, !rbind_return. reflexivity.
    + eapply Forall_impl; [exact Hpre |]. intros x Hx.
      unfold candidate. rewrite Hx. reflexivity.
    + unfold candidate, line_matches. rewrite Hh, contains_nil. reflexivity.
Qed.

Lemma find_in_file_empty_inputs_witness :
  exists et,
    get_edit_type " context1" = Return et
    /\ find_in_file scenario_file ""
       = Return (et, true,
                 l_source_line_no
                   (pass_lines (["@@ -1,3 +1,4 @@"] ++ [" context1"])
                      find_in_file_init),
                 scenario_file,
                 l_target_line_no
                   (pass_lines (["@@ -1,3 +1,4 @@"] ++ [" context1"])
                      find_in_file_init)).
Proof.
  refine (proj2 (find_in_file_empty_inputs scenario_file "")
            ["@@ -1,3 +1,4 @@"] " context1"
            ["-old line"; "+new line A"; "+new line B"; " context2"]
            eq_refl _ eq_refl _).
  - repeat constructor.
  - discriminate.
Defined.

(** ** What [search_line] returns *)

Lemma find_in_file_target (f : FilePatchInfo) (ref et : string) (fnd : bool)
    (src : Z) (tf : FilePatchInfo) (tgt : Z) :
  find_in_file f ref = Return (et, fnd, src, tf, tgt) -> tf = f.
Proof.
  unfold find_in_file. destruct (find_in_lines _ _); [| discriminate].
  rewrite rbind_return. intros H. inversion H. reflexivity.
Qed.

Lemma for_each_search_result (path ref : string) (files : list FilePatchInfo)
    (st st' : search_locals) :
  for_each (search_line_body path ref) files st = Return st' ->
  (st' = st /\ Forall (fun f => filename f <> path) files)
  \/ exists pre f post et fnd src tgt,
       files = (pre ++ f :: post)%list
       /\ filename f = path
       /\ Forall (fun x => filename x <> path) post
       /\ find_in_file f ref = Return (et, fnd, src, f, tgt)
       /\ st' = mkSearch et (Some fnd) (Some src) (Some f) (Some tgt).
Proof.
  revert st. induction files as [|x xs IH]; intros st H.
  - inversion H. left. split; [reflexivity | constructor].
  - cbn [for_each] in H. unfold search_line_body at 1 in H.
    destruct (String.eqb_spec (filename x) path) as [Heq | Hne].
    + destruct (find_in_file x ref) as [[[[[et fnd] src] tf] tgt] | e] eqn:Hx;
        [| discriminate].
      pose proof (find_in_file_target _ _ _ _ _ _ _ Hx) as ->.
      rewrite rbind_return in H.
      destruct (IH _ H) as [[-> Hxs] |
        (pre & f & post & et' & fnd' & src' & tgt' & -> & Hf & Hpost & Hfind & ->)].
      * right. exists [], x, xs, et, fnd, src, tgt. repeat split; assumption.
      * right. exists (x :: pre), f, post, et', fnd', src', tgt'.
        repeat split; assumption.
    + destruct (IH _ H) as [[-> Hxs] |
        (pre & f & post & et' & fnd' & src' & tgt' & -> & Hf & Hpost & Hfind & ->)].
      * left. split; [reflexivity | constructor; assumption].
      * right. exists (x :: pre), f, post, et', fnd', src', tgt'.
        repeat split; assumption.
Qed.

(** X8.  Whenever [search_line] returns, the file it returns is an entry
    of the catalog that carries the requested name, the last one in
    iteration order, and the other four values are those that
    [find_in_file] gives on that entry; the returned file is never
    [None]. *)
Theorem search_line_returns_catalog_entry (self : GitLabProvider)
    (relevant_file ref et : string) (fnd : bool) (src : Z)
    (tf : option FilePatchInfo) (tgt : Z) :
  search_line self relevant_file ref = Return (et, fnd, src, tf, tgt) ->
  exists pre f post,
    diff_files self = Some (pre ++ f :: post)%list
    /\ tf = Some f
    /\ filename f = relevant_file
    /\ Forall (fun x => filename x <> relevant_file) post
    /\ find_in_file f ref = Return (et, fnd, src, f, tgt).
Proof.
  unfold search_line.
  destruct (get_edit_type ref) as [et0 | e]; [| discriminate].
  rewrite rbind_return. unfold iter_diff_files.
  destruct (diff_files self) as [files |]; [| discriminate].
  rewrite rbind_return.
  destruct (for_each _ files _) as [st |] eqn:Hloop; [| discriminate].
  rewrite rbind_return.
  destruct (for_each_search_result _ _ _ _ _ Hloop) as [[-> _] |
    (pre & f & post & et' & fnd' & src' & tgt' & -> & Hf & Hpost & Hfind & ->)].
  - discriminate.
  - cbn [s_found s_source_line_no s_target_line_no s_target_file s_edit_type
         read_local]. rewrite !rbind_return.
    intros H. inversion H; subst. exists pre, f, post. repeat split; assumption.
Qed.

Lemma search_line_returns_catalog_entry_witness :
  exists pre f post,
    diff_files twice_provider = Some (pre ++ f :: post)%list
    /\ Some scenario_file = Some f
    /\ filename f = "src/app.py"
    /\ Forall (fun x => filename x <> "src/app.py") post
    /\ find_in_file f "context1" = Return ("context", true, 2, f, 2).
Proof.
  refine (search_line_returns_catalog_entry twice_provider "src/app.py"
            "context1" "context" true 2 (Some scenario_file) 2 _).
  vm_compute. reflexivity.
Defined.

(** ** The lazily built catalog *)

Lemma set_diff_files_same (self : GitLabProvider)
    (fs : option (list FilePatchInfo)) :
  diff_files self = fs -> set_diff_files fs self = self.
Proof. destruct self. cbn. intros ->. reflexivity. Qed.












Lemma ensure_diff_files_keep (E : environment) (self : GitLabProvider)
    (f : FilePatchInfo) (fs : list FilePatchInfo) :
  diff_files self = Some (f :: fs) ->
  ensure_diff_files E self = (Return tt, self).
Proof.
  intros H. unfold ensure_diff_files. rewrite bind_get_self, H.
  unfold modify. rewrite (set_diff_files_same _ _ H). reflexivity.
Qed.







(** ** Contents that cannot be decoded *)




(** ** [publish_inline_comment] *)

Lemma publish_inline_comment_unfold (E : environment) (body rf ref : string)
    (self : GitLabProvider) (f : FilePatchInfo) (fs : list FilePatchInfo) :
  diff_files self = Some (f :: fs) ->
  publish_inline_comment E body rf ref self
  = match search_line self rf ref with
    | Return (et, fnd, src, tf, tgt) =>
        send_inline_comment E body et fnd (PStr rf) (PStr ref) (PInt src) tf
          (PInt tgt) self
    | Raise e => (Raise e, self)
    end.
Proof.
  intros Hd. unfold publish_inline_comment.
  rewrite bind_unfold, (ensure_diff_files_keep E self f fs Hd).
  rewrite bind_get_self, bind_lift.
  destruct (search_line self rf ref) as [[[[[et fnd] src] tf] tgt] | e];
    reflexivity.
Qed.

(** X12.  [publish_inline_comment] has no handler of its own.  For a file
    name that no entry of a non-empty catalog carries it does not log and
    skip: the [UnboundLocalError] of [search_line] reaches the caller, and
    nothing is published, logged or changed. *)
Theorem publish_inline_comment_unknown_file (E : environment)
    (body relevant_file ref : string) (self : GitLabProvider)
    (f : FilePatchInfo) (fs : list FilePatchInfo) :
  diff_files self = Some (f :: fs) ->
  Forall (fun x => filename x <> relevant_file) (f :: fs) ->
  ref <> "" ->
  publish_inline_comment E body relevant_file ref self
  = (Raise (UnboundLocalError "found"), self).
Proof.
  intros Hd Hnone Hne.
  rewrite (publish_inline_comment_unfold _ _ _ _ _ _ _ Hd).
  unfold search_line. destruct ref as [|c r]; [congruence |].
  destruct (get_edit_type_nonempty c r) as [et ->]. rewrite rbind_return.
  unfold iter_diff_files. rewrite Hd, rbind_return.
  rewrite (for_each_search_others _ _ _ _ Hnone). reflexivity.
Qed.

Lemma publish_inline_comment_unknown_file_witness :
  publish_inline_comment scenario_env "note" "README.md" "context1"
    scenario_provider
  = (Raise (UnboundLocalError "found"), scenario_provider).
Proof.
  refine (publish_inline_comment_unknown_file scenario_env "note" "README.md"
            "context1" scenario_provider scenario_file [] eq_refl _ _).
  - repeat constructor. discriminate.
  - discriminate.
Defined.

(** X13.  With a non-empty catalog [publish_inline_comment] is
    [search_line] followed by [send_inline_comment], without a new request
    for the changes.  When the reference is not found in the file, one
    informational record is logged and nothing is published; when it is
    found, the outcome is that of sending the values that [search_line]
    returned. *)
Theorem publish_inline_comment_composes (E : environment)
    (body relevant_file ref : string) (self : GitLabProvider)
    (f : FilePatchInfo) (fs : list FilePatchInfo) :
  diff_files self = Some (f :: fs) ->
  (forall et src tf tgt,
     search_line self relevant_file ref = Return (et, false, src, tf, tgt) ->
     publish_inline_comment E body relevant_file ref self
     = (Return tt,
        add_log (LogInfo_no_position (PStr relevant_file) (PStr ref)) self))
  /\ (forall et src tf tgt,
        search_line self relevant_file ref = Return (et, true, src, tf, tgt) ->
        publish_inline_comment E body relevant_file ref self
        = send_inline_comment E body et true (PStr relevant_file) (PStr ref)
            (PInt src) tf (PInt tgt) self)
  /\ (forall e,
        search_line self relevant_file ref = Raise e ->
        publish_inline_comment E body relevant_file ref self = (Raise e, self)).
Proof.
  intros Hd. rewrite (publish_inline_comment_unfold _ _ _ _ _ _ _ Hd).
  repeat split; intros; rewrite H; reflexivity.
Qed.

Lemma publish_inline_comment_composes_witness :
  publish_inline_comment scenario_env "note" "src/app.py" "missing text"
    scenario_provider
  = (Return tt,
     add_log (LogInfo_no_position (PStr "src/app.py") (PStr "missing text"))
       scenario_provider).
Proof.
  refine (proj1 (publish_inline_comment_composes scenario_env "note"
                   "src/app.py" "missing text" scenario_provider
                   scenario_file [] eq_refl)
            "context" 4 (Some scenario_file) 5 _).
  vm_compute. reflexivity.
Defined.

(** ** Arguments that are [None] *)

(** X14.  [send_inline_comment] with [found] true needs a file: with
    [target_file] equal to [None] it raises [AttributeError].  With a
    [source_line_no] of [None], as [publish_code_suggestions] passes it,
    the position can be built for the edit type 'addition' only; for any
    other edit type, and likewise for a [target_line_no] of [None] with
    any edit type but 'deletion', it raises [TypeError].  In all these
    cases nothing is logged or published. *)
Theorem send_inline_comment_none_arguments (E : environment)
    (body edit_type : string) (relevant_file relevant_line_in_file : pyval)
    (source_line_no target_line_no : pyval) (f : FilePatchInfo)
    (self : GitLabProvider) :
  send_inline_comment E body edit_type true relevant_file
    relevant_line_in_file source_line_no None target_line_no self
  = (Raise AttributeError, self)
  /\ (edit_type <> "addition" ->
      send_inline_comment E body edit_type true relevant_file
        relevant_line_in_file PNone (Some f) target_line_no self
      = (Raise TypeError, self))
  /\ (edit_type <> "deletion" ->
      send_inline_comment E body edit_type true relevant_file
        relevant_line_in_file source_line_no (Some f) PNone self
      = (Raise TypeError, self))
  /\ (forall n, exists pos,
        build_pos_obj (last_diff self) "addition" PNone (Some f) (PInt n)
        = Return pos
        /\ pos !! "new_line" = Some (PInt (n - 1))
        /\ pos !! "old_line" = None).
Proof.
  split; [reflexivity |]. split; [| split].
  - intros Ha. unfold send_inline_comment. cbn [negb].
    rewrite bind_get_self, bind_lift. unfold build_pos_obj.
    cbn [getattr_file]. rewrite rbind_return.
    rewrite (proj2 (String.eqb_neq _ _) Ha).
    destruct (edit_type =? "deletion")%string; [reflexivity |].
    destruct target_line_no; reflexivity.
  - intros Hd. unfold send_inline_comment. cbn [negb].
    rewrite bind_get_self, bind_lift. unfold build_pos_obj.
    cbn [getattr_file]. rewrite rbind_return.
    rewrite (proj2 (String.eqb_neq _ _) Hd).
    destruct (edit_type =? "addition")%string; reflexivity.
  - intros n. unfold build_pos_obj. cbn [getattr_file].
    rewrite rbind_return. cbn [String.eqb Ascii.eqb Bool.eqb py_sub].
    rewrite rbind_return. eexists. split; [reflexivity |].
    split; repeat (rewrite lookup_insert_ne by discriminate);
      rewrite ?lookup_insert_eq, ?lookup_empty; reflexivity.
Qed.

Lemma send_inline_comment_none_arguments_witness :
  send_inline_comment scenario_env "note" "context" true (PStr "src/app.py")
    (PStr "context1") PNone (Some scenario_file) (PInt 2) scenario_provider
  = (Raise TypeError, scenario_provider).
Proof.
  refine (proj1 (proj2 (send_inline_comment_none_arguments scenario_env "note"
            "context" (PStr "src/app.py") (PStr "context1") PNone (PInt 2)
            scenario_file scenario_provider)) _).
  discriminate.
Defined.

(** ** One suggestion, step by step *)

Lemma pick_target_first (relevant_file : pyval) (files : list FilePatchInfo)
    (tf0 : option FilePatchInfo) :
  for_each (pick_target_body relevant_file) files tf0
  = Return (match first_named relevant_file files with
            | Some f => Some f
            | None => tf0
            end).
Proof.
  unfold first_named. revert tf0.
  induction files as [|x xs IH]; intros tf0; [reflexivity |].
  cbn [for_each List.find]. unfold pick_target_body at 1.
  destruct (filename_eq x relevant_file); [reflexivity | apply IH].
Qed.

Lemma dict_getitem_some (d : gmap string pyval) (k : string) (v : pyval) :
  d !! k = Some v -> dict_getitem d k = Return v.
Proof. unfold dict_getitem. intros ->. reflexivity. Qed.

Lemma head_file_lines_some (f : FilePatchInfo) :
  exists lines, head_file_lines (Some f) = Return lines.
Proof.
  unfold head_file_lines. cbn [getattr_file]. rewrite rbind_return.
  destruct (head_file f); eauto.
Qed.

(** A well-typed suggestion, with a catalog that is not empty. *)
Lemma publish_suggestion_run (E : environment) (sug : gmap string pyval)
    (self : GitLabProvider) (b name : string) (s e : Z)
    (f0 : FilePatchInfo) (fs : list FilePatchInfo) :
  sug !! "body" = Some (PStr b) ->
  sug !! "relevant_file" = Some (PStr name) ->
  sug !! "relevant_lines_start" = Some (PInt s) ->
  sug !! "relevant_lines_end" = Some (PInt e) ->
  diff_files self = Some (f0 :: fs) ->
  publish_suggestion E sug self
  = match first_named (PStr name) (f0 :: fs) with
    | None => (Raise AttributeError, self)
    | Some f =>
        match head_file_lines (Some f) with
        | Raise e' => (Raise e', self)
        | Return lines =>
            match list_getitem lines (s - 1) with
            | Raise e' => (Raise e', self)
            | Return line =>
                send_inline_comment E (rewritten b (e - s)) "addition" true
                  (PStr name) line PNone (Some f) (PInt (s + 1)) self
            end
        end
    end.
Proof.
  intros Hb Hn Hs He Hd. unfold publish_suggestion.
  rewrite bind_lift, (dict_getitem_some _ _ _ Hb).
  rewrite bind_lift, (dict_getitem_some _ _ _ Hn).
  rewrite bind_lift, (dict_getitem_some _ _ _ Hs).
  rewrite bind_lift, (dict_getitem_some _ _ _ He).
  rewrite bind_unfold, (ensure_diff_files_keep E self f0 fs Hd).
  rewrite bind_get_self, bind_lift. unfold iter_diff_files. rewrite Hd.
  rewrite bind_lift, pick_target_first.
  rewrite bind_lift. cbn [py_sub]. rewrite bind_lift. cbn [rewrite_body].
  destruct (first_named (PStr name) (f0 :: fs)) as [f |].
  - rewrite bind_lift.
    destruct (head_file_lines (Some f)) as [lines | e']; [| reflexivity].
    rewrite bind_lift. unfold line_at. cbn [py_sub]. rewrite rbind_return.
    destruct (list_getitem lines (s - 1)) as [line | e']; [| reflexivity].
    rewrite bind_lift. reflexivity.
  - rewrite bind_lift. reflexivity.
Qed.

Lemma list_getitem_bounds {A} (l : list A) (i : Z) :
  let n := Z.of_nat (length l) in
  ((i < - n \/ n <= i) -> list_getitem l i = Raise IndexError)
  /\ (0 <= i < n ->
      exists x, list_getitem l i = Return x /\ l !! Z.to_nat i = Some x)
  /\ (- n <= i < 0 ->
      exists x, list_getitem l i = Return x
                /\ l !! Z.to_nat (i + n) = Some x).
Proof.
  intros n. unfold list_getitem. fold n.
  assert (Hlook : forall j, 0 <= j < n -> exists x, l !! Z.to_nat j = Some x).
  { intros j Hj. apply lookup_lt_is_Some. unfold n in Hj. lia. }
  split; [| split].
  - intros H. destruct (i <? 0) eqn:Hi.
    + apply Z.ltb_lt in Hi.
      destruct ((i + n <? 0) || (n <=? i + n)) eqn:Hc; [reflexivity |].
      apply orb_false_iff in Hc as [H1 H2].
      apply Z.ltb_ge in H1. apply Z.leb_gt in H2. lia.
    + apply Z.ltb_ge in Hi.
      destruct ((i <? 0) || (n <=? i)) eqn:Hc; [reflexivity |].
      apply orb_false_iff in Hc as [H1 H2]. apply Z.leb_gt in H2. lia.
  - intros H. destruct (Hlook i H) as [x Hx]. exists x.
    rewrite (proj2 (Z.ltb_ge i 0)) by lia.
    rewrite (proj2 (Z.ltb_ge i 0)) by lia.
    rewrite (proj2 (Z.leb_gt n i)) by lia. cbn [orb]. rewrite Hx. auto.
  - intros H. destruct (Hlook (i + n) ltac:(lia)) as [x Hx]. exists x.
    rewrite (proj2 (Z.ltb_lt i 0)) by lia.
    rewrite (proj2 (Z.ltb_ge (i + n) 0)) by lia.
    rewrite (proj2 (Z.leb_gt n (i + n))) by lia. cbn [orb]. rewrite Hx. auto.
Qed.

Lemma send_keeps_catalog (E : environment) (body edit_type : string)
    (found : bool) (relevant_file relevant_line_in_file : pyval)
    (source_line_no : pyval) (target_file : option FilePatchInfo)
    (target_line_no : pyval) (self : GitLabProvider) (r : result unit)
    (self' : GitLabProvider) :
  send_inline_comment E body edit_type found relevant_file
    relevant_line_in_file source_line_no target_file target_line_no self
  = (r, self') ->
  diff_files self' = diff_files self.
Proof.
  unfold send_inline_comment. destruct found; cbn [negb].
  - rewrite bind_get_self, bind_lift.
    destruct (build_pos_obj _ _ _ _ _) as [pos | e];
      [| intros H; inversion H; reflexivity].
    unfold logging. rewrite bind_modify. unfold mr_discussions_create.
    destruct (discussions_create E _ _); intros H; inversion H; reflexivity.
  - intros H. inversion H. reflexivity.
Qed.

Lemma first_named_name (name : string) (files : list FilePatchInfo)
    (f : FilePatchInfo) :
  first_named (PStr name) files = Some f -> filename f = name.
Proof.
  unfold first_named. intros H. apply List.find_some in H as [_ H].
  apply String.eqb_eq, H.
Qed.

(** X15.  Where a suggestion is anchored.  Whenever the work on a
    suggestion ends normally, exactly one discussion has been created; its
    position is that of an addition, with [new_line] equal to
    [relevant_lines_start] and no [old_line], whatever the lines of the
    diff are; its [new_path] is the suggestion's file name, and its
    [old_path] is taken from the first entry of the catalog that carries
    this name. *)
Theorem suggestion_position (E : environment) (sug : gmap string pyval)
    (self self' : GitLabProvider) :
  publish_suggestion E sug self = (Return tt, self') ->
  exists d s name files f,
    discussions self' = (discussions self ++ [d])%list
    /\ sug !! "relevant_lines_start" = Some (PInt s)
    /\ sug !! "relevant_file" = Some (PStr name)
    /\ d_position d !! "position_type" = Some (PStr "text")
    /\ d_position d !! "new_line" = Some (PInt s)
    /\ d_position d !! "old_line" = None
    /\ d_position d !! "new_path" = Some (PStr name)
    /\ diff_files self' = Some files
    /\ first_named (PStr name) files = Some f
    /\ d_position d !! "old_path" = Some (PStr (old_path_of f)).
Proof.
  intros H. unfold publish_suggestion in H.
  apply bind_return_inv in H as (body & s1 & H1 & H).
  apply lift_return_inv in H1 as [_ ->].
  apply bind_return_inv in H as (rf & s1 & H1 & H).
  apply lift_return_inv in H1 as [Hrf ->].
  apply bind_return_inv in H as (start & s1 & H1 & H).
  apply lift_return_inv in H1 as [Hstart ->].
  apply bind_return_inv in H as (stop & s1 & H1 & H).
  apply lift_return_inv in H1 as [_ ->].
  apply bind_return_inv in H as ([] & s1 & Hens & H).
  destruct (quiet_ensure_diff_files E _ _ _ Hens) as [Hdisc _].
  rewrite bind_get_self in H.
  apply bind_return_inv in H as (files & s2 & H1 & H).
  apply lift_return_inv in H1 as [Hfiles ->].
  apply bind_return_inv in H as (tf & s2 & H1 & H).
  apply lift_return_inv in H1 as [Hpick ->].
  apply bind_return_inv in H as (range & s2 & H1 & H).
  apply lift_return_inv in H1 as [_ ->].
  apply bind_return_inv in H as (body' & s2 & H1 & H).
  apply lift_return_inv in H1 as [_ ->].
  apply bind_return_inv in H as (lines & s2 & H1 & H).
  apply lift_return_inv in H1 as [Hlines ->].
  apply bind_return_inv in H as (rl & s2 & H1 & H).
  apply lift_return_inv in H1 as [_ ->].
  apply bind_return_inv in H as (tln & s2 & H1 & H).
  apply lift_return_inv in H1 as [Htln ->].
  pose proof (send_keeps_catalog _ _ _ _ _ _ _ _ _ _ _ _ H) as Hcat.
  apply send_found_inv in H as (pos & Hpos & Hsent).
  unfold dict_getitem in Hrf, Hstart.
  destruct (sug !! "relevant_file") as [vrf |]; [| discriminate].
  destruct (sug !! "relevant_lines_start") as [vs |]; [| discriminate].
  inversion Hrf; inversion Hstart; subst; clear Hrf Hstart.
  destruct start as [| s | |]; try discriminate.
  cbn [py_add1] in Htln. inversion Htln; subst; clear Htln.
  unfold iter_diff_files in Hfiles.
  destruct (diff_files s1) as [fl |] eqn:Hfl; [| discriminate].
  inversion Hfiles; subst; clear Hfiles.
  rewrite pick_target_first in Hpick. inversion Hpick; subst; clear Hpick.
  destruct (first_named rf files) as [f |] eqn:Hfirst; [| discriminate].
  assert (Hname : exists name, rf = PStr name /\ filename f = name).
  { unfold first_named in Hfirst. apply List.find_some in Hfirst as [_ Hq].
    unfold filename_eq in Hq. destruct rf as [| | name |]; try discriminate.
    exists name. split; [reflexivity | apply String.eqb_eq, Hq]. }
  destruct Hname as (name & -> & Hname).
  unfold build_pos_obj in Hpos. cbn [getattr_file] in Hpos.
  rewrite rbind_return in Hpos.
  cbn [String.eqb Ascii.eqb Bool.eqb py_sub] in Hpos.
  rewrite rbind_return in Hpos. inversion Hpos; subst pos; clear Hpos.
  exists (mkDiscussion body'
            (<["new_line" := PInt (s + 1 - 1)]>
             (<["head_sha" := PStr (head_commit_sha (last_diff s1))]>
              (<["start_sha" := PStr (start_commit_sha (last_diff s1))]>
               (<["base_sha" := PStr (base_commit_sha (last_diff s1))]>
                (<["old_path" := PStr (old_path_of f)]>
                 (<["new_path" := PStr (filename f)]>
                  (<["position_type" := PStr "text"]> ∅)))))))),
    s, name, files, f.
  cbn [d_position].
  split; [rewrite Hsent, Hdisc; reflexivity |].
  do 2 (split; [reflexivity |]).
  replace (s + 1 - 1) with s by lia. rewrite Hname.
  repeat split; try exact Hcat; try (rewrite Hcat; exact Hfl);
    try exact Hfirst;
    repeat (rewrite lookup_insert_ne by discriminate);
    rewrite ?lookup_insert_eq, ?lookup_empty; reflexivity.
Qed.

Lemma suggestion_position_witness :
  exists d s name files f,
    discussions (snd (publish_suggestion scenario_env scenario_suggestion
                        scenario_provider))
    = (discussions scenario_provider ++ [d])%list
    /\ scenario_suggestion !! "relevant_lines_start" = Some (PInt s)
    /\ scenario_suggestion !! "relevant_file" = Some (PStr name)
    /\ d_position d !! "position_type" = Some (PStr "text")
    /\ d_position d !! "new_line" = Some (PInt s)
    /\ d_position d !! "old_line" = None
    /\ d_position d !! "new_path" = Some (PStr name)
    /\ diff_files (snd (publish_suggestion scenario_env scenario_suggestion
                          scenario_provider)) = Some files
    /\ first_named (PStr name) files = Some f
    /\ d_position d !! "old_path" = Some (PStr (old_path_of f)).
Proof.
  refine (suggestion_position scenario_env scenario_suggestion
            scenario_provider _ _).
  vm_compute. reflexivity.
Defined.

(** X16.  The bounds of [relevant_lines_start].  For a well-typed
    suggestion whose file has [n] lines in its new content, the line is
    read at index [relevant_lines_start - 1], and a negative index counts
    from the end: the work fails with [IndexError], leaving the provider
    untouched, exactly when the start is greater than [n] or less than
    [1 - n].  A start between [1 - n] and 0 is accepted: the comment is
    sent, anchored at that start. *)
Theorem suggestion_line_bounds (E : environment) (sug : gmap string pyval)
    (self : GitLabProvider) (b name : string) (s e : Z)
    (f0 : FilePatchInfo) (fs : list FilePatchInfo) (f : FilePatchInfo)
    (lines : list pyval) :
  sug !! "body" = Some (PStr b) ->
  sug !! "relevant_file" = Some (PStr name) ->
  sug !! "relevant_lines_start" = Some (PInt s) ->
  sug !! "relevant_lines_end" = Some (PInt e) ->
  diff_files self = Some (f0 :: fs) ->
  first_named (PStr name) (f0 :: fs) = Some f ->
  head_file_lines (Some f) = Return lines ->
  let n := Z.of_nat (length lines) in
  ((s < 1 - n \/ n < s) ->
   publish_suggestion E sug self = (Raise IndexError, self))
  /\ (1 - n <= s <= n ->
      exists line,
        lines !! Z.to_nat (if s <=? 0 then s - 1 + n else s - 1) = Some line
        /\ publish_suggestion E sug self
           = send_inline_comment E (rewritten b (e - s)) "addition" true
               (PStr name) line PNone (Some f) (PInt (s + 1)) self).
Proof.
  intros Hb Hn Hs He Hd Hfirst Hlines n.
  rewrite (publish_suggestion_run E sug self b name s e f0 fs Hb Hn Hs He Hd).
  rewrite Hfirst, Hlines.
  destruct (list_getitem_bounds lines (s - 1)) as (Hout & Hin & Hneg).
  fold n in Hout, Hin, Hneg. split.
  - intros H. rewrite Hout by lia. reflexivity.
  - intros H. destruct (s <=? 0) eqn:Hs0.
    + apply Z.leb_le in Hs0.
      destruct (Hneg ltac:(lia)) as (line & -> & Hl). exists line. auto.
    + apply Z.leb_gt in Hs0.
      destruct (Hin ltac:(lia)) as (line & -> & Hl). exists line. auto.
Qed.

Lemma suggestion_line_bounds_witness :
  exists line,
    [PStr "context1"; PStr "new line A"; PStr "new line B"; PStr "context2"]
      !! Z.to_nat (if 0 <=? 0 then 0 - 1 + 4 else 0 - 1) = Some line
    /\ publish_suggestion scenario_env zero_suggestion scenario_provider
       = send_inline_comment scenario_env (rewritten "```suggestion" (1 - 0))
           "addition" true (PStr "src/app.py") line PNone
           (Some scenario_file) (PInt (0 + 1)) scenario_provider.
Proof.
  refine (proj2 (suggestion_line_bounds scenario_env zero_suggestion
                   scenario_provider "```suggestion" "src/app.py" 0 1
                   scenario_file [] scenario_file
                   [PStr "context1"; PStr "new line A"; PStr "new line B";
                    PStr "context2"]
                   eq_refl eq_refl eq_refl eq_refl eq_refl eq_refl eq_refl) _).
  cbn. lia.
Defined.

(** ** Suggestions that cannot be placed *)

Lemma dict_getitem_none (d : gmap string pyval) (k : string) :
  d !! k = None -> dict_getitem d k = Raise (KeyError k).
Proof. unfold dict_getitem. intros ->. reflexivity. Qed.

Lemma publish_one (E : environment) (sug : gmap string pyval)
    (self self1 : GitLabProvider) (e : exn) :
  publish_suggestion E sug self = (Raise e, self1) ->
  publish_code_suggestions E [sug] self
  = (Return tt, add_log (LogException_suggestion sug e) self1).
Proof.
  intros H. unfold publish_code_suggestions. cbn [for_each_M].
  rewrite bind_unfold. unfold try_except. rewrite H. reflexivity.
Qed.

(** X17.  A suggestion that lacks one of its four keys fails with the
    [KeyError] of the first missing key, in the order body, relevant_file,
    relevant_lines_start, relevant_lines_end, before the catalog is looked
    at: the provider is untouched, and [publish_code_suggestions] logs the
    failure and nothing else. *)
Theorem suggestion_missing_key (E : environment) (sug : gmap string pyval)
    (self : GitLabProvider) (k : string) :
  first_missing_key sug = Some k ->
  publish_suggestion E sug self = (Raise (KeyError k), self)
  /\ publish_code_suggestions E [sug] self
     = (Return tt, add_log (LogException_suggestion sug (KeyError k)) self).
Proof.
  intros Hk.
  assert (Hrun : publish_suggestion E sug self = (Raise (KeyError k), self)).
  { unfold first_missing_key in Hk. cbn [List.find] in Hk.
    unfold publish_suggestion.
    destruct (sug !! "body") as [v0 |] eqn:H0.
    2:{ inversion Hk; subst.
        rewrite bind_lift, (dict_getitem_none _ _ H0). reflexivity. }
    rewrite bind_lift, (dict_getitem_some _ _ _ H0).
    destruct (sug !! "relevant_file") as [v1 |] eqn:H1.
    2:{ inversion Hk; subst.
        rewrite bind_lift, (dict_getitem_none _ _ H1). reflexivity. }
    rewrite bind_lift, (dict_getitem_some _ _ _ H1).
    destruct (sug !! "relevant_lines_start") as [v2 |] eqn:H2.
    2:{ inversion Hk; subst.
        rewrite bind_lift, (dict_getitem_none _ _ H2). reflexivity. }
    rewrite bind_lift, (dict_getitem_some _ _ _ H2).
    destruct (sug !! "relevant_lines_end") as [v3 |] eqn:H3;
      [discriminate |].
    inversion Hk; subst.
    rewrite bind_lift, (dict_getitem_none _ _ H3). reflexivity. }
  split; [exact Hrun | apply publish_one, Hrun].
Qed.

Lemma suggestion_missing_key_witness :
  publish_suggestion scenario_env broken_suggestion scenario_provider
  = (Raise (KeyError "body"), scenario_provider)
  /\ publish_code_suggestions scenario_env [broken_suggestion]
       scenario_provider
     = (Return tt,
        add_log (LogException_suggestion broken_suggestion (KeyError "body"))
          scenario_provider).
Proof.
  exact (suggestion_missing_key scenario_env broken_suggestion
           scenario_provider "body" eq_refl).
Defined.

(** X18.  A suggestion for a file that no entry of the (non-empty) catalog
    carries is not published: the work fails with [AttributeError] on the
    missing file, the provider is untouched, and
    [publish_code_suggestions] logs this failure. *)
Theorem suggestion_unknown_file (E : environment) (sug : gmap string pyval)
    (self : GitLabProvider) (b name : string) (s e : Z)
    (f0 : FilePatchInfo) (fs : list FilePatchInfo) :
  sug !! "body" = Some (PStr b) ->
  sug !! "relevant_file" = Some (PStr name) ->
  sug !! "relevant_lines_start" = Some (PInt s) ->
  sug !! "relevant_lines_end" = Some (PInt e) ->
  diff_files self = Some (f0 :: fs) ->
  Forall (fun x => filename x <> name) (f0 :: fs) ->
  publish_suggestion E sug self = (Raise AttributeError, self)
  /\ publish_code_suggestions E [sug] self
     = (Return tt, add_log (LogException_suggestion sug AttributeError) self).
Proof.
  intros Hb Hn Hs He Hd Hnone.
  assert (Hrun : publish_suggestion E sug self = (Raise AttributeError, self)).
  { rewrite (publish_suggestion_run E sug self b name s e f0 fs Hb Hn Hs He Hd).
    destruct (first_named (PStr name) (f0 :: fs)) as [f |] eqn:Hf;
      [| reflexivity].
    pose proof (first_named_name _ _ _ Hf) as Hname.
    unfold first_named in Hf. apply List.find_some in Hf as [Hin _].
    rewrite Forall_forall in Hnone.
    destruct (Hnone f (proj2 (list_elem_of_In _ _) Hin) Hname). }
  split; [exact Hrun | apply publish_one, Hrun].
Qed.

Lemma suggestion_unknown_file_witness :
  publish_suggestion scenario_env stray_suggestion scenario_provider
  = (Raise AttributeError, scenario_provider)
  /\ publish_code_suggestions scenario_env [stray_suggestion]
       scenario_provider
     = (Return tt,
        add_log (LogException_suggestion stray_suggestion AttributeError)
          scenario_provider).
Proof.
  refine (suggestion_unknown_file scenario_env stray_suggestion
            scenario_provider "```suggestion" "README.md" 1 1 scenario_file []
            eq_refl eq_refl eq_refl eq_refl eq_refl _).
  repeat constructor. discriminate.
Defined.

(** ** Batches *)

Lemma publish_code_suggestions_cons (E : environment)
    (sug : gmap string pyval) (rest : list (gmap string pyval))
    (self : GitLabProvider) :
  publish_code_suggestions E (sug :: rest) self
  = publish_code_suggestions E rest
      (snd (publish_code_suggestions E [sug] self)).
Proof.
  unfold publish_code_suggestions. cbn [for_each_M].
  rewrite !bind_unfold.
  destruct (suggestion_turn E sug self) as (self1 & -> & _). reflexivity.
Qed.

(** X19.  Batches compose: publishing the suggestions of [l1 ++ l2] is
    publishing those of [l1] and then, from the provider so reached, those
    of [l2]; nothing of the first batch is undone and no failure in it
    keeps the second from running.  The empty batch does nothing. *)
Theorem publish_code_suggestions_app (E : environment)
    (l1 l2 : list (gmap string pyval)) (self : GitLabProvider) :
  publish_code_suggestions E (l1 ++ l2) self
  = publish_code_suggestions E l2 (snd (publish_code_suggestions E l1 self))
  /\ publish_code_suggestions E [] self = (Return tt, self).
Proof.
  split; [| reflexivity]. revert self.
  induction l1 as [|sug l1 IH]; intros self; [reflexivity |].
  rewrite <- app_comm_cons.
  rewrite publish_code_suggestions_cons, IH.
  rewrite (publish_code_suggestions_cons E sug l1 self). reflexivity.
Qed.

(** ** Temporary comments *)

Lemma delete_comments_outcome (srv : notes_server) (cs : list note)
    (st : comments) (r : result unit) (st' : comments) :
  delete_comments srv cs st = (r, st') ->
  created st' = created st /\ temp_comments st' = temp_comments st
  /\ removal_failures st' = removal_failures st
  /\ exists k,
       deleted st' = (deleted st ++ take k cs)%list
       /\ ((r = Return tt /\ k = length cs)
           \/ exists e c, r = Raise e /\ cs !! k = Some c
                          /\ note_delete srv (deleted st') c = Some e).
Proof.
  revert st. induction cs as [|c cs IH]; intros st H.
  - inversion H; subst. repeat split. exists O.
    split; [rewrite app_nil_r; reflexivity | left; split; reflexivity].
  - cbn [delete_comments] in H.
    destruct (note_delete srv (deleted st) c) as [e |] eqn:Hdel.
    + inversion H; subst. repeat split. exists O.
      split; [rewrite app_nil_r; reflexivity |].
      right. exists e, c. repeat split. exact Hdel.
    + destruct (IH _ H) as (Hc & Ht & Hf & k & Hd & Hk).
      cbn [created temp_comments removal_failures deleted] in *.
      repeat split; try assumption. exists (S k).
      split; [rewrite Hd, <- app_assoc; reflexivity |].
      destruct Hk as [[-> ->] | (e & c' & -> & Hl & He)].
      * left. split; reflexivity.
      * right. exists e, c'. repeat split; assumption.
Qed.

(** X20.  [remove_initial_comment] never raises.  It deletes the temporary
    comments in the order in which they were published and stops at the
    first deletion that fails: that failure is logged and the comments
    after it are left on the merge request.  The list of temporary
    comments is not cleared, whether the deletions succeed or not. *)
Theorem remove_initial_comment_outcome (srv : notes_server) (st : comments) :
  exists st' k,
    remove_initial_comment srv st = (Return tt, st')
    /\ created st' = created st
    /\ temp_comments st' = temp_comments st
    /\ deleted st' = (deleted st ++ take k (temp_comments st))%list
    /\ ((k = length (temp_comments st)
         /\ removal_failures st' = removal_failures st)
        \/ exists e c,
             temp_comments st !! k = Some c
             /\ note_delete srv (deleted st') c = Some e
             /\ removal_failures st' = (removal_failures st ++ [e])%list).
Proof.
  unfold remove_initial_comment.
  destruct (delete_comments srv (temp_comments st) st) as [[[] | e] st1] eqn:H;
    destruct (delete_comments_outcome _ _ _ _ _ H)
      as (Hc & Ht & Hf & k & Hd & Hk);
    eexists; exists k; (split; [reflexivity |]);
    cbn [created temp_comments deleted removal_failures];
    repeat (split; [assumption |]).
  - destruct Hk as [[_ ->] | (e & c & He & _)]; [| discriminate].
    left. split; [reflexivity | exact Hf].
  - destruct Hk as [[He _] | (e' & c & He & Hl & Hdel)]; [discriminate |].
    inversion He; subst. right. exists e', c.
    repeat split; [exact Hl | exact Hdel | rewrite Hf; reflexivity].
Qed.

Lemma publish_comments_outcome (srv : notes_server) (cs : list (string * bool))
    (st st1 : comments) :
  publish_comments srv cs st = (Return tt, st1) ->
  exists new,
    created st1 = (created st ++ new)%list
    /\ length new = length cs
    /\ temp_comments st1 = (temp_comments st ++ flagged new (snd <$> cs))%list
    /\ deleted st1 = deleted st
    /\ removal_failures st1 = removal_failures st.
Proof.
  revert st. induction cs as [|[body flag] cs IH]; intros st H.
  - inversion H; subst. exists [].
    repeat split; rewrite ?app_nil_r; reflexivity.
  - cbn [publish_comments] in H. unfold publish_comment in H.
    destruct (notes_create srv (created st) body) as [c | e]; [| discriminate].
    destruct (IH _ H) as (new & Hc & Hlen & Ht & Hd & Hf).
    cbn [created temp_comments deleted removal_failures] in *.
    exists (c :: new). split; [rewrite Hc, <- app_assoc; reflexivity |].
    split; [cbn; rewrite Hlen; reflexivity |].
    split; [| split; assumption].
    rewrite Ht. unfold flagged. cbn [fmap list_fmap combine List.filter snd].
    destruct flag; cbn [fmap list_fmap fst];
      [rewrite <- app_assoc |]; reflexivity.
Qed.

(** X21.  Temporary comments go, the others stay.  When the server
    refuses no deletion: after comments have been published, each with its
    flag, starting without temporary comments, [remove_initial_comment]
    deletes exactly the notes that were created with the flag set, in the
    order of their creation; a comment published without the flag is
    never deleted. *)
Theorem temporary_comments_are_removed (srv : notes_server)
    (cs : list (string * bool)) (st st1 : comments) :
  (forall ds n, note_delete srv ds n = None) ->
  temp_comments st = [] ->
  publish_comments srv cs st = (Return tt, st1) ->
  exists new st2,
    created st1 = (created st ++ new)%list
    /\ length new = length cs
    /\ remove_initial_comment srv st1 = (Return tt, st2)
    /\ deleted st2 = (deleted st ++ flagged new (snd <$> cs))%list
    /\ removal_failures st2 = removal_failures st.
Proof.
  intros Hagree Hempty Hpub.
  destruct (publish_comments_outcome _ _ _ _ Hpub)
    as (new & Hc & Hlen & Ht & Hd & Hf).
  rewrite Hempty in Ht. cbn [app] in Ht.
  unfold remove_initial_comment.
  destruct (delete_comments srv (temp_comments st1) st1) as [r st2] eqn:Hrun.
  destruct (delete_comments_outcome _ _ _ _ _ Hrun)
    as (_ & _ & Hf2 & k & Hdel & Hk).
  destruct Hk as [[-> ->] | (e & c & _ & _ & He)];
    [| rewrite Hagree in He; discriminate].
  exists new, st2. repeat split; try assumption.
  - rewrite Hdel, firstn_all, Hd, Ht. reflexivity.
  - rewrite Hf2. exact Hf.
Qed.

Lemma temporary_comments_are_removed_witness :
  exists new st2,
    created (snd (publish_comments numbering_server
                    [("working", true); ("review", false); ("wait", true)]
                    no_comments))
    = (created no_comments ++ new)%list
    /\ length new = 3%nat
    /\ remove_initial_comment numbering_server
         (snd (publish_comments numbering_server
                 [("working", true); ("review", false); ("wait", true)]
                 no_comments))
       = (Return tt, st2)
    /\ deleted st2
       = (deleted no_comments
          ++ flagged new (snd <$> [("working", true); ("review", false);
                                   ("wait", true)]))%list
    /\ removal_failures st2 = removal_failures no_comments.
Proof.
  refine (temporary_comments_are_removed numbering_server
            [("working", true); ("review", false); ("wait", true)]
            no_comments _ _ eq_refl eq_refl).
  intros ds n. reflexivity.
Defined.

(** ** The path of a merge request URL *)

Lemma list_index_none (x : string) (l : list string) :
  ~ In x l -> list_index x l = None.
Proof.
  induction l as [|y l IH]; [reflexivity |]. intros H. cbn [list_index].
  destruct (String.eqb_spec y x) as [-> | _]; [destruct H; left; reflexivity |].
  rewrite IH; [reflexivity |]. intros Hin. apply H. right. exact Hin.
Qed.

Lemma list_index_first (x : string) (pre rest : list string) :
  ~ In x pre -> list_index x (pre ++ x :: rest) = Some (length pre).
Proof.
  induction pre as [|y pre IH]; intros H.
  - cbn [app list_index]. rewrite String.eqb_refl. reflexivity.
  - cbn [app list_index length].
    destruct (String.eqb_spec y x) as [-> | _]; [destruct H; left; reflexivity |].
    rewrite IH; [reflexivity |]. intros Hin. apply H. right. exact Hin.
Qed.

(** The parts around the first part that reads [merge_requests]. *)
Lemma parse_at_first_marker (py_int : string -> option Z) (path : string)
    (pre rest : list string) :
  split_slash (strip_slash path) = (pre ++ "merge_requests" :: rest)%list ->
  ~ In "merge_requests" pre ->
  parse_merge_request_path py_int path
  = match rest with
    | [] => inl NoMergeRequestID
    | part :: _ =>
        match py_int part with
        | None => inl IDNotInteger
        | Some mr_id =>
            inr (without_delimiter (String.concat "/" pre), mr_id)
        end
    end.
Proof.
  intros Hparts Hpre. unfold parse_merge_request_path.
  rewrite Hparts, (list_index_first _ _ _ Hpre).
  rewrite length_app. cbn [length].
  destruct rest as [|part rest'].
  - cbn [length]. rewrite (proj2 (Nat.leb_le _ _)) by lia. reflexivity.
  - cbn [length]. rewrite (proj2 (Nat.leb_gt _ _)) by lia.
    rewrite lookup_app_r by lia.
    replace (length pre + 1 - length pre)%nat with 1%nat by lia.
    cbn [lookup list_lookup]. rewrite take_app_length. reflexivity.
Qed.

(** X22.  The cases of [_parse_merge_request_url], on the parts of the
    path between slashes.  Without a part that reads [merge_requests] the
    URL is refused.  Otherwise the first such part decides: when it is the
    last part, the ID is missing; when the part after it is no integer,
    the ID is refused; else the ID is that integer and the project path is
    made of the parts before, without a final [/-].  Parts after the ID
    play no role. *)
Theorem merge_request_path_cases (py_int : string -> option Z)
    (path : string) :
  (~ In "merge_requests" (split_slash (strip_slash path)) ->
   parse_merge_request_path py_int path = inl NotMergeRequestURL)
  /\ (forall pre rest,
        split_slash (strip_slash path)
        = (pre ++ "merge_requests" :: rest)%list ->
        ~ In "merge_requests" pre ->
        (rest = [] ->
         parse_merge_request_path py_int path = inl NoMergeRequestID)
        /\ (forall part rest',
              rest = part :: rest' -> py_int part = None ->
              parse_merge_request_path py_int path = inl IDNotInteger)
        /\ (forall part rest' mr_id,
              rest = part :: rest' -> py_int part = Some mr_id ->
              parse_merge_request_path py_int path
              = inr (without_delimiter (String.concat "/" pre), mr_id))).
Proof.
  split.
  - intros H. unfold parse_merge_request_path.
    rewrite (list_index_none _ _ H). reflexivity.
  - intros pre rest Hparts Hpre.
    rewrite (parse_at_first_marker py_int path pre rest Hparts Hpre).
    repeat split.
    + intros ->. reflexivity.
    + intros part rest' -> ->. reflexivity.
    + intros part rest' mr_id -> ->. reflexivity.
Qed.

Lemma no_slash_head (c : ascii) (s : string) :
  no_slash (String c s) = true -> is_slash c = false /\ no_slash s = true.
Proof.
  cbn [no_slash]. intros H. apply andb_true_iff in H as [H1 H2].
  apply negb_true_iff in H1. auto.
Qed.

Lemma append_nonempty (a b : string) : b <> "" -> (a ++ b)%string <> "".
Proof.
  destruct a; [rewrite append_nil_l; auto | rewrite append_cons; discriminate].
Qed.

Lemma rstrip_slash_part (p : string) :
  no_slash p = true -> p <> "" -> rstrip_slash p = p.
Proof.
  induction p as [|c p IH]; [congruence |]. intros H _.
  destruct (no_slash_head _ _ H) as [Hc Hp]. cbn [rstrip_slash].
  destruct p as [|d p'].
  - cbn [rstrip_slash]. rewrite Hc. reflexivity.
  - rewrite (IH Hp) by discriminate. reflexivity.
Qed.

Lemma rstrip_slash_app (a b : string) :
  rstrip_slash b <> "" ->
  rstrip_slash (a ++ b)%string = (a ++ rstrip_slash b)%string.
Proof.
  intros Hb. induction a as [|c a IH]; [rewrite !append_nil_l; reflexivity |].
  rewrite !append_cons. cbn [rstrip_slash]. rewrite IH.
  pose proof (append_nonempty a _ Hb) as Hne.
  destruct (a ++ rstrip_slash b)%string; [congruence | reflexivity].
Qed.

Lemma concat_cons2 (p q : string) (ps : list string) :
  String.concat "/" (p :: q :: ps)
  = (p ++ String "/" (String.concat "/" (q :: ps)))%string.
Proof. reflexivity. Qed.

Lemma concat_parts_nonempty (ps : list string) :
  ps <> [] -> Forall part_ok ps -> String.concat "/" ps <> "".
Proof.
  intros Hne Hok. destruct ps as [|p ps]; [congruence |].
  inversion Hok as [|? ? [Hp _] _]; subst.
  destruct ps as [|q ps]; [exact Hp |].
  rewrite concat_cons2. apply append_nonempty. discriminate.
Qed.

Lemma rstrip_slash_concat (ps : list string) :
  ps <> [] -> Forall part_ok ps ->
  rstrip_slash (String.concat "/" ps) = String.concat "/" ps.
Proof.
  induction ps as [|p ps IH]; [congruence |]. intros _ Hok.
  inversion Hok as [|? ? [Hp Hs] Hps]; subst.
  destruct ps as [|q ps]; [apply rstrip_slash_part; assumption |].
  rewrite concat_cons2.
  assert (Hrest : rstrip_slash (String.concat "/" (q :: ps))
                  = String.concat "/" (q :: ps))
    by (apply IH; [discriminate | exact Hps]).
  assert (Hne : String.concat "/" (q :: ps) <> "")
    by (apply concat_parts_nonempty; [discriminate | exact Hps]).
  rewrite rstrip_slash_app.
  - f_equal. cbn [rstrip_slash]. rewrite Hrest.
    destruct (String.concat "/" (q :: ps)); [congruence | reflexivity].
  - cbn [rstrip_slash]. rewrite Hrest.
    destruct (String.concat "/" (q :: ps)); [congruence | discriminate].
Qed.

Lemma lstrip_slash_concat (ps : list string) :
  ps <> [] -> Forall part_ok ps ->
  lstrip_slash (String.concat "/" ps) = String.concat "/" ps.
Proof.
  intros Hne Hok. destruct ps as [|p ps]; [congruence |].
  inversion Hok as [|? ? [Hp Hs] _]; subst.
  destruct p as [|c p]; [congruence |].
  destruct (no_slash_head _ _ Hs) as [Hc _].
  destruct ps as [|q ps].
  - cbn [String.concat lstrip_slash]. rewrite Hc. reflexivity.
  - rewrite concat_cons2, append_cons. cbn [lstrip_slash]. rewrite Hc.
    reflexivity.
Qed.

Lemma split_slash_single (p : string) :
  no_slash p = true -> split_slash p = [p].
Proof.
  induction p as [|c p IH]; [reflexivity |]. intros H.
  destruct (no_slash_head _ _ H) as [Hc Hp].
  cbn [split_slash]. rewrite Hc, (IH Hp). reflexivity.
Qed.

Lemma split_slash_part (p s : string) :
  no_slash p = true ->
  split_slash (p ++ String "/" s)%string = p :: split_slash s.
Proof.
  induction p as [|c p IH]; intros H.
  - rewrite append_nil_l. reflexivity.
  - destruct (no_slash_head _ _ H) as [Hc Hp].
    rewrite append_cons. cbn [split_slash]. rewrite Hc, (IH Hp). reflexivity.
Qed.

Lemma split_slash_concat (ps : list string) :
  ps <> [] -> Forall part_ok ps -> split_slash (String.concat "/" ps) = ps.
Proof.
  induction ps as [|p ps IH]; [congruence |]. intros _ Hok.
  inversion Hok as [|? ? [Hp Hs] Hps]; subst.
  destruct ps as [|q ps]; [apply split_slash_single, Hs |].
  rewrite concat_cons2, (split_slash_part _ _ Hs), IH;
    [reflexivity | discriminate | exact Hps].
Qed.

Lemma concat_snoc (ps : list string) (x : string) :
  ps <> [] ->
  String.concat "/" (ps ++ [x])
  = (String.concat "/" ps ++ String "/" x)%string.
Proof.
  induction ps as [|p ps IH]; [congruence |]. intros _.
  destruct ps as [|q ps]; [reflexivity |].
  change ((p :: q :: ps) ++ [x])%list with (p :: (q :: ps) ++ [x])%list.
  change ((q :: ps) ++ [x])%list with (q :: ps ++ [x])%list in *.
  rewrite concat_cons2, IH by discriminate.
  rewrite concat_cons2.
  generalize (String.concat "/" (q :: ps)). intros t.
  induction p as [|c p IHp]; [reflexivity |].
  rewrite !append_cons, IHp. reflexivity.
Qed.

Lemma endswith_app (x suffix : string) :
  endswith suffix (x ++ suffix)%string = true.
Proof.
  induction x as [|c x IH].
  - rewrite append_nil_l. destruct suffix; cbn [endswith];
      rewrite String.eqb_refl; reflexivity.
  - rewrite append_cons. cbn [endswith]. rewrite IH. apply orb_true_r.
Qed.

Lemma length_append (x y : string) :
  String.length (x ++ y)%string = (String.length x + String.length y)%nat.
Proof.
  induction x as [|c x IH]; [reflexivity |].
  rewrite append_cons. cbn [String.length]. rewrite IH. reflexivity.
Qed.

Lemma substring_prefix (x y : string) :
  String.substring 0 (String.length x) (x ++ y)%string = x.
Proof.
  induction x as [|c x IH].
  - rewrite append_nil_l. destruct y; reflexivity.
  - rewrite append_cons. cbn [String.length String.substring].
    rewrite IH. reflexivity.
Qed.

Lemma without_delimiter_app (x : string) : without_delimiter (x ++ "/-") = x.
Proof.
  unfold without_delimiter. rewrite endswith_app. unfold drop_last_two.
  rewrite length_append. cbn [String.length].
  replace (String.length x + 2 - 2)%nat with (String.length x) by lia.
  apply substring_prefix.
Qed.

Lemma digits_no_slash (ds : string) : all_digits ds = true -> no_slash ds = true.
Proof.
  induction ds as [|c ds IH]; [reflexivity |]. cbn [all_digits no_slash].
  intros H. apply andb_true_iff in H as [Hc Hd]. rewrite (IH Hd), andb_true_r.
  unfold is_slash. destruct (Ascii.eqb_spec c "/") as [-> |];
    [discriminate Hc | reflexivity].
Qed.

(** X23.  Round trip through the path of a merge request.  For a project
    path made of parts that are not empty, hold no slash and do not read
    [merge_requests], and an ID written in digits, the path
    [/<project>/-/merge_requests/<ID>], with or without further parts
    behind it, gives back the project path, without the delimiter, and
    the number that the digits denote. *)
Theorem merge_request_path_round_trip (py_int : string -> option Z)
    (proj : list string) (id : string) (rest : list string) :
  reads_digits py_int ->
  proj <> [] -> Forall part_ok proj -> ~ In "merge_requests" proj ->
  id <> "" -> all_digits id = true -> Forall part_ok rest ->
  parse_merge_request_path py_int
    ("/" ++ String.concat "/"
              (proj ++ "-" :: "merge_requests" :: id :: rest))%string
  = inr (String.concat "/" proj, Py.int id).
Proof.
  intros Hint Hne Hproj Hnot Hid Hdig Hrest.
  set (parts := (proj ++ "-" :: "merge_requests" :: id :: rest)%list).
  assert (Hparts_ne : parts <> []) by (unfold parts; destruct proj; discriminate).
  assert (Hok : Forall part_ok parts).
  { unfold parts. apply Forall_app. split; [exact Hproj |].
    repeat constructor; try discriminate; try exact Hrest; try exact Hid.
    apply digits_no_slash, Hdig. }
  assert (Hsplit : split_slash
            (strip_slash ("/" ++ String.concat "/" parts)%string)
          = ((proj ++ ["-"]) ++ "merge_requests" :: id :: rest)%list).
  { unfold strip_slash. change ("/" ++ String.concat "/" parts)%string
      with (String "/" (String.concat "/" parts)).
    cbn [lstrip_slash is_slash Ascii.eqb Bool.eqb].
    rewrite (lstrip_slash_concat _ Hparts_ne Hok).
    rewrite (rstrip_slash_concat _ Hparts_ne Hok).
    rewrite (split_slash_concat _ Hparts_ne Hok).
    unfold parts. rewrite <- app_assoc. reflexivity. }
  rewrite (parse_at_first_marker py_int _ _ _ Hsplit).
  - rewrite (Hint id Hid Hdig), (concat_snoc _ _ Hne).
    change (String "/" "-") with "/-". rewrite without_delimiter_app.
    reflexivity.
  - intros Hin. apply in_app_or in Hin as [Hin | [Hin | []]];
      [exact (Hnot Hin) | discriminate Hin].
Qed.

Lemma reads_digits_int_of_digits : reads_digits int_of_digits.
Proof.
  intros ds Hne Hd. unfold int_of_digits. rewrite Hd.
  destruct ds; [congruence | reflexivity].
Qed.

Lemma merge_request_path_round_trip_witness :
  parse_merge_request_path int_of_digits
    ("/" ++ String.concat "/"
              (["group"; "project"]
               ++ "-" :: "merge_requests" :: "12" :: ["diffs"]))%string
  = inr (String.concat "/" ["group"; "project"], Py.int "12").
Proof.
  refine (merge_request_path_round_trip int_of_digits ["group"; "project"]
            "12" ["diffs"] reads_digits_int_of_digits _ _ _ _ eq_refl _).
  - discriminate.
  - repeat constructor; discriminate.
  - intros [H | [H | []]]; discriminate H.
  - discriminate.
  - repeat constructor. discriminate.
Defined.
